(** * python_wow: the combat and progression engine of [entities.py]

    A shallow embedding of the entity classes ([LivingThing], [Monster],
    [Character]) together with the properties the specification states
    about them.

    Conventions of the embedding.
    - Python [int] is [Z].  Python [float] is idealised as an exact
      rational ([Q]): [0.1] is [1 # 10], [/] is exact division and no
      rounding takes place.  Numbers that the code may turn into floats
      (health, damage) are [Q] and compared with [==].  The one float
      product on which the code branches, [random_float * 100] in the
      loot roll, is rounded as the floats round it.
    - [dict] is stdpp's [gmap]; a failed subscript is [Raise KeyError].
    - Methods that mutate [self] are functions in a state-and-exception
      monad: the state survives a raised exception, as the fields
      assigned before a Python exception stay assigned.
    - [random] is an explicit source: a tape of raw draws and a cursor.
    - [print] calls have no counterpart. *)

From Stdlib Require Import ZArith QArith Qround Lia.
From stdpp Require Import base option strings gmap.

Local Open Scope Z_scope.

(** ** Python numbers *)

(** [int(x)] on a float: truncation towards zero. *)
Definition py_int (x : Q) : Z := Z.quot (Qnum x) (Zpos (Qden x)).

(** The mathematical floor, to compare [py_int] with. *)
Definition floor (x : Q) : Z := Qfloor x.

(** The tenth, Python's literal [0.1]. *)
Definition tenth : Q := 1 # 10.

(** ** The rounding of a float product

    A float carries 53 significant bits; a product of two floats is the
    exact product rounded to 53 significant bits, to the nearest float
    and, halfway between two, to the one whose last bit is 0.
    [round_significand m] rounds a whole number so.  [round_to_float x]
    rounds a rational whose denominator is a power of two, as the draws
    of [random.random()] and their products with whole numbers are, by
    rounding its numerator; such products are far from the ranges where
    floats overflow or lose bits. *)

Definition round_significand (m : Z) : Z :=
  let bits := Z.log2 (Z.abs m) + 1 in
  if bits <=? 53 then m
  else
    let ulp := 2 ^ (bits - 53) in
    let q := Z.abs m / ulp in
    let rest := Z.abs m mod ulp in
    let up := (ulp <? 2 * rest) || ((2 * rest =? ulp) && Z.odd q) in
    Z.sgn m * ((if up then q + 1 else q) * ulp).

Definition round_to_float (x : Q) : Q := round_significand (Qnum x) # Qden x.

(** ** Exceptions and the state monad *)

Inductive Exn : Set := KeyError | ValueError | TypeError | ZeroDivisionError.

Inductive result (A : Type) : Type :=
| Ok (a : A)
| Raise (e : Exn).
Arguments Ok {A} a.
Arguments Raise {A} e.

Definition M (St A : Type) : Type := St -> result A * St.

Definition ret {St A : Type} (a : A) : M St A := fun s => (Ok a, s).

Definition raise {St A : Type} (e : Exn) : M St A := fun s => (Raise e, s).

Definition bind {St A B : Type} (m : M St A) (k : A -> M St B) : M St B :=
  fun s => match m s with
           | (Ok a, s') => k a s'
           | (Raise e, s') => (Raise e, s')
           end.

Definition get {St : Type} : M St St := fun s => (Ok s, s).

Definition modify {St : Type} (f : St -> St) : M St unit := fun s => (Ok tt, f s).

Notation "'do' x <- m 'in' k" := (bind m (fun x => k))
  (at level 10, x name, m at level 100, k at level 200).
Notation "m >> k" := (bind m (fun _ => k))
  (at level 58, left associativity).

(** [d[k]]: the subscript of a dict. *)
Definition subscript {St : Type} `{Countable K} {V : Type} (d : gmap K V) (k : K) : M St V :=
  match d !! k with
  | Some v => ret v
  | None => raise KeyError
  end.

(** The final state of a run, and whether it ended normally. *)
Definition state_of {St A : Type} (r : result A * St) : St := snd r.

Definition returned {St A : Type} (r : result A * St) : bool :=
  match fst r with Ok _ => true | Raise _ => false end.

(** ** The random source

    [tape] holds the raw 53-bit draws of the generator, [pos] the next one
    to use.  [random] is [random.random()], a fraction in [0, 1);
    [randint a b] is [random.randint(a, b)], an integer [N] with
    [a <= N <= b], both ends included, and a [ValueError] on an empty
    range. *)

Record Rng : Type := { tape : nat -> N; pos : nat }.

Definition two53 : positive := 9007199254740992.

Definition next_raw (g : Rng) : N * Rng :=
  (tape g (pos g), {| tape := tape g; pos := S (pos g) |}).

Definition random : M Rng Q :=
  fun g => let (n, g') := next_raw g in
           (Ok (Z.of_N (n mod Npos two53) # two53), g').

Definition randint (a b : Z) : M Rng Z :=
  fun g => if b <? a then (Raise ValueError, g)
           else let (n, g') := next_raw g in
                (Ok (a + Z.of_N n mod (b - a + 1)), g').

(** A tape that always yields the same raw draw. *)
Definition constant_rng (n : N) : Rng := {| tape := fun _ => n; pos := 0 |}.

(** ** Values the entities exchange *)

(** Modelled from the spec: [Damage] ([damage.py] is not among the sources).
    A signed physical-damage magnitude that can be subtracted from health;
    armor mitigation builds a new value. *)
Record Damage : Type := { phys_dmg : Q }.

(** [health - damage]: the subtraction [Damage] supports. *)
Definition health_minus (health : Q) (damage : Damage) : Q := health - phys_dmg damage.

Definition Damage_eqb (a b : Damage) : bool := Qeq_bool (phys_dmg a) (phys_dmg b).

(** Modelled from the spec: [Item] and [Weapon] ([items.py] is not among
    the sources): name, buy price, optional quest-relation id ([0] is
    none), and for a weapon its damage range. *)
Record Item : Type := {
  item_name : string;
  buy_price : Z;
  quest_ID : Z
}.

Record Weapon : Type := {
  weapon_item : Item;
  weapon_min_damage : Q;
  weapon_max_damage : Q
}.

(** A slot of the character's inventory dict: the reserved ["gold"] entry
    is a bare number, every other entry a tuple [(item, count)]. *)
Inductive InventoryEntry : Type :=
| Gold (amount : Z)
| Stack (item : Item) (count : Z).

(** A slot of the monster's loot dict: gold or a dropped item. *)
Inductive LootEntry : Type :=
| LootGold (amount : Z)
| LootItem (item : Item).

(** Modelled from the spec: [Quest] ([quest.py] is not among the sources).
    Id, name, required kill count, required item counts, progress
    counter, completion flag derived as progress >= requirement, XP
    reward. *)
Module Quest.

Record t : Type := {
  ID : Z;
  name : string;
  monster_to_kill : string;
  needed_kills : Z;
  kills : Z;
  required_items : list (string * Z);
  xp_reward : Z;
  is_completed : bool
}.

Definition set_progress (q : t) (k : Z) (done : bool) : t :=
  {| ID := ID q; name := name q; monster_to_kill := monster_to_kill q;
     needed_kills := needed_kills q; kills := k;
     required_items := required_items q; xp_reward := xp_reward q;
     is_completed := done |}.

(** One more kill; complete once the required count is met. *)
Definition update_kills (q : t) : t :=
  set_progress q (kills q + 1) (needed_kills q <=? kills q + 1).

Definition has_items (inventory : gmap string InventoryEntry) (req : string * Z) : bool :=
  match inventory !! fst req with
  | Some (Stack _ n) => snd req <=? n
  | _ => false
  end.

(** Complete once every required item count is met in the inventory. *)
Definition check_if_complete (q : t) (inventory : gmap string InventoryEntry) : t :=
  set_progress q (kills q) (forallb (has_items inventory) (required_items q)).

Definition give_reward (q : t) : Z := xp_reward q.

End Quest.

(** Modelled from the spec: the [DoT] status effect ([buffs.py] is not
    among the sources, only its tests are).  Name, damage per tick,
    remaining duration and the caster's level; equality compares name,
    damage and duration and leaves the caster's level out. *)
Module DoT.

Record t : Type := {
  name : string;
  damage : Damage;
  duration : Z;
  level : Z
}.

Definition update_caster_level (d : t) (new_level : Z) : t :=
  {| name := name d; damage := damage d; duration := duration d; level := new_level |}.

Definition eqb (a b : t) : bool :=
  bool_decide (name a = name b) && Damage_eqb (damage a) (damage b)
  && (duration a =? duration b).

End DoT.

(** Running a computation on one half of a paired state. *)
Definition on_fst {A B X : Type} (m : M A X) : M (A * B) X :=
  fun s => let (r, a') := m (fst s) in (r, (a', snd s)).

Definition on_snd {A B X : Type} (m : M B X) : M (A * B) X :=
  fun s => let (r, b') := m (snd s) in (r, (fst s, b')).

(** ** The content database

    The loaders of [loader.py] read the game's tables; they are not among
    the sources and enter the model as data. *)
Record Content : Type := {
  CREATURE_XP_REWARD_DICTIONARY : gmap Z Z;
  CREATURE_GOLD_REWARD_DICTIONARY : gmap Z (Z * Z);
  load_loot_table : Z -> list (Z * Z);
  load_item : Z -> Item;
  load_character_level_stats : gmap Z (gmap string Z);
  load_character_xp_requirements : gmap Z Z
}.

Definition lookup_xp_reward {St : Type} (db : Content) (level : Z) : M St Z :=
  subscript (CREATURE_XP_REWARD_DICTIONARY db) level.

Definition lookup_gold_reward {St : Type} (db : Content) (level : Z) : M St (Z * Z) :=
  subscript (CREATURE_GOLD_REWARD_DICTIONARY db) level.

(** The branches on [level_difference] that both [get_auto_attack_damage]
    methods apply to the drawn damage: ten percent less or more per level
    of difference. *)
Definition scale_by_level (level_difference : Z) (damage_to_deal : Q) : Q :=
  let percentage_mod := (inject_Z (Z.abs level_difference) * tenth)%Q in
  if level_difference =? 0 then damage_to_deal
  else if level_difference <? 0 then (damage_to_deal - damage_to_deal * percentage_mod)%Q
  else (damage_to_deal + damage_to_deal * percentage_mod)%Q.

(** ** [class LivingThing] *)
Module LivingThing.

Record t : Type := {
  name : string;
  health : Q;
  max_health : Q;
  mana : Q;
  max_mana : Q;
  _alive : bool;
  _in_combat : bool
}.

Definition __init__ (name : string) (health mana : Q) : t :=
  {| name := name; health := health; max_health := health;
     mana := mana; max_mana := mana; _alive := true; _in_combat := false |}.

Definition set_health (h : Q) (self : t) : t :=
  {| name := name self; health := h; max_health := max_health self;
     mana := mana self; max_mana := max_mana self;
     _alive := _alive self; _in_combat := _in_combat self |}.

Definition set_max (mh mm : Q) (self : t) : t :=
  {| name := name self; health := health self; max_health := mh;
     mana := mana self; max_mana := mm;
     _alive := _alive self; _in_combat := _in_combat self |}.

Definition set_alive (b : bool) (self : t) : t :=
  {| name := name self; health := health self; max_health := max_health self;
     mana := mana self; max_mana := max_mana self;
     _alive := b; _in_combat := _in_combat self |}.

Definition set_in_combat (b : bool) (self : t) : t :=
  {| name := name self; health := health self; max_health := max_health self;
     mana := mana self; max_mana := max_mana self;
     _alive := _alive self; _in_combat := b |}.

Definition is_alive (self : t) : bool := _alive self.

Definition is_in_combat (self : t) : bool := _in_combat self.

Definition enter_combat (self : t) : t := set_in_combat true self.

Definition _regenerate (self : t) : t :=
  {| name := name self; health := max_health self; max_health := max_health self;
     mana := max_mana self; max_mana := max_mana self;
     _alive := _alive self; _in_combat := _in_combat self |}.

Definition leave_combat (self : t) : t := _regenerate (set_in_combat false self).

Definition _die (self : t) : t := set_alive false self.

Definition revive (self : t) : t := set_alive true (_regenerate self).

(** [check_if_dead] calls [self._die()], which a subclass overrides: the
    subclass supplies its view of the base fields and its own [_die]. *)
Definition check_if_dead {St : Type} (base : St -> t) (_die : M St unit) : M St unit :=
  fun s => if Qle_bool (health (base s)) 0 then _die s else ret tt s.

End LivingThing.

(** ** [class Monster] *)
Module Monster.

Record t : Type := {
  base : LivingThing.t;
  monster_id : Z;
  level : Z;
  min_damage : Z;
  max_damage : Z;
  xp_to_give : Z;
  gossip : string;
  _gold_to_give : Z;
  quest_relation_ID : Z;
  loot_table_ID : Z;
  loot : gmap string LootEntry
}.

Definition set_base (b : LivingThing.t) (self : t) : t :=
  {| base := b; monster_id := monster_id self; level := level self;
     min_damage := min_damage self; max_damage := max_damage self;
     xp_to_give := xp_to_give self; gossip := gossip self;
     _gold_to_give := _gold_to_give self;
     quest_relation_ID := quest_relation_ID self;
     loot_table_ID := loot_table_ID self; loot := loot self |}.

Definition set_loot (l : gmap string LootEntry) (self : t) : t :=
  {| base := base self; monster_id := monster_id self; level := level self;
     min_damage := min_damage self; max_damage := max_damage self;
     xp_to_give := xp_to_give self; gossip := gossip self;
     _gold_to_give := _gold_to_give self;
     quest_relation_ID := quest_relation_ID self;
     loot_table_ID := loot_table_ID self; loot := l |}.

Definition health (self : t) : Q := LivingThing.health (base self).

Definition is_alive (self : t) : bool := LivingThing.is_alive (base self).

(** [_calculate_gold_reward]: a gold amount between the two ends of the
    tuple, both included. *)
Definition _calculate_gold_reward (min_max_gold : Z * Z) : M Rng Z :=
  randint (fst min_max_gold) (snd min_max_gold).

Definition __init__ (db : Content) (monster_id : Z) (name : string) (health mana : Q)
    (level min_damage max_damage quest_relation_id loot_table_ID : Z)
    (gossip : string) : M Rng t :=
  let super := LivingThing.__init__ name health mana in
  do xp <- lookup_xp_reward db level in
  do min_max_gold <- lookup_gold_reward db level in
  do gold <- _calculate_gold_reward min_max_gold in
  ret {| base := super; monster_id := monster_id; level := level;
         min_damage := min_damage; max_damage := max_damage;
         xp_to_give := xp; gossip := gossip; _gold_to_give := gold;
         quest_relation_ID := quest_relation_id;
         loot_table_ID := loot_table_ID;
         loot := {[ "gold"%string := LootGold gold ]} |}.

(** A monster's damage bounds are integers, on which [int(...)] is the
    identity. *)
Definition get_auto_attack_damage (self : t) (target_level : Z) : M Rng Damage :=
  let level_difference := level self - target_level in
  do damage_to_deal <- randint (min_damage self) (max_damage self + 1) in
  ret {| phys_dmg := scale_by_level level_difference (inject_Z damage_to_deal) |}.

(** The body of the loop of [_drop_loot], once per entry of the table. *)
Fixpoint roll_each (db : Content) (loot_list : list (Z * Z)) : M (t * Rng) unit :=
  match loot_list with
  | [] => ret tt
  | (item_ID, item_drop_chance) :: rest =>
      do random_float <- on_snd random in
      (if Qle_bool (round_to_float (random_float * 100)) (inject_Z item_drop_chance)
       then let item := load_item db item_ID in
            on_fst (modify (fun self =>
              set_loot (<[ item_name item := LootItem item ]> (loot self)) self))
       else ret tt)
      >> roll_each db rest
  end.

Definition _drop_loot (db : Content) : M (t * Rng) unit :=
  do s <- get in
  roll_each db (load_loot_table db (loot_table_ID (fst s))).

Definition give_loot (item_name : string) : M t (option LootEntry) :=
  do self <- get in
  match loot self !! item_name with
  | None => ret None
  | Some item => modify (set_loot (delete item_name (loot self))) >> ret (Some item)
  end.

Definition _die (db : Content) : M (t * Rng) unit :=
  on_fst (modify (fun self => set_base (LivingThing._die (base self)) self))
  >> _drop_loot db.

Definition check_if_dead (db : Content) : M (t * Rng) unit :=
  LivingThing.check_if_dead (fun s => base (fst s)) (_die db).

Definition take_attack (db : Content) (damage : Damage) : M (t * Rng) unit :=
  on_fst (modify (fun self =>
    set_base (LivingThing.set_health (health_minus (health self) damage) (base self)) self))
  >> check_if_dead db.

(** The methods a monster inherits from [LivingThing], on its base fields. *)
Definition enter_combat (self : t) : t :=
  set_base (LivingThing.enter_combat (base self)) self.

Definition leave_combat (self : t) : t :=
  set_base (LivingThing.leave_combat (base self)) self.

Definition revive (self : t) : t :=
  set_base (LivingThing.revive (base self)) self.

End Monster.

(** ** [class Character] *)
Module Character.

Definition KEY_LEVEL_STATS_HEALTH : string := "health".
Definition KEY_LEVEL_STATS_MANA : string := "mana".
Definition KEY_LEVEL_STATS_STRENGTH : string := "strength".
Definition KEY_LEVEL_STATS_ARMOR : string := "armor".

Record t : Type := {
  base : LivingThing.t;
  strength : Z;
  min_damage : Q;
  max_damage : Q;
  equipped_weapon : Weapon;
  level : Z;
  experience : Z;
  xp_req_to_level : Z;
  armor : Z;
  current_zone : string;
  current_subzone : string;
  _LEVEL_STATS : gmap Z (gmap string Z);
  _REQUIRED_XP_TO_LEVEL : gmap Z Z;
  quest_log : gmap Z Quest.t;
  inventory : gmap string InventoryEntry
}.

Definition starter_weapon : Weapon :=
  {| weapon_item := {| item_name := "Starter Weapon"; buy_price := 0; quest_ID := 0 |};
     weapon_min_damage := 0; weapon_max_damage := 1 |}.

Definition __init__ (db : Content) (name : string) (health mana : Q) (strength : Z) : t :=
  {| base := LivingThing.__init__ name health mana;
     strength := strength; min_damage := 0; max_damage := 1;
     equipped_weapon := starter_weapon;
     level := 1; experience := 0; xp_req_to_level := 400; armor := 75;
     current_zone := "Elwynn Forest"; current_subzone := "Northshire Valley";
     _LEVEL_STATS := load_character_level_stats db;
     _REQUIRED_XP_TO_LEVEL := load_character_xp_requirements db;
     quest_log := ∅;
     inventory := {[ "gold"%string := Gold 0 ]} |}.

Definition set_base (b : LivingThing.t) (self : t) : t :=
  {| base := b; strength := strength self;
     min_damage := min_damage self; max_damage := max_damage self;
     equipped_weapon := equipped_weapon self; level := level self;
     experience := experience self; xp_req_to_level := xp_req_to_level self;
     armor := armor self; current_zone := current_zone self;
     current_subzone := current_subzone self; _LEVEL_STATS := _LEVEL_STATS self;
     _REQUIRED_XP_TO_LEVEL := _REQUIRED_XP_TO_LEVEL self;
     quest_log := quest_log self; inventory := inventory self |}.

Definition set_stats (s a : Z) (self : t) : t :=
  {| base := base self; strength := s;
     min_damage := min_damage self; max_damage := max_damage self;
     equipped_weapon := equipped_weapon self; level := level self;
     experience := experience self; xp_req_to_level := xp_req_to_level self;
     armor := a; current_zone := current_zone self;
     current_subzone := current_subzone self; _LEVEL_STATS := _LEVEL_STATS self;
     _REQUIRED_XP_TO_LEVEL := _REQUIRED_XP_TO_LEVEL self;
     quest_log := quest_log self; inventory := inventory self |}.

Definition set_level (l : Z) (self : t) : t :=
  {| base := base self; strength := strength self;
     min_damage := min_damage self; max_damage := max_damage self;
     equipped_weapon := equipped_weapon self; level := l;
     experience := experience self; xp_req_to_level := xp_req_to_level self;
     armor := armor self; current_zone := current_zone self;
     current_subzone := current_subzone self; _LEVEL_STATS := _LEVEL_STATS self;
     _REQUIRED_XP_TO_LEVEL := _REQUIRED_XP_TO_LEVEL self;
     quest_log := quest_log self; inventory := inventory self |}.

Definition set_experience (e : Z) (self : t) : t :=
  {| base := base self; strength := strength self;
     min_damage := min_damage self; max_damage := max_damage self;
     equipped_weapon := equipped_weapon self; level := level self;
     experience := e; xp_req_to_level := xp_req_to_level self;
     armor := armor self; current_zone := current_zone self;
     current_subzone := current_subzone self; _LEVEL_STATS := _LEVEL_STATS self;
     _REQUIRED_XP_TO_LEVEL := _REQUIRED_XP_TO_LEVEL self;
     quest_log := quest_log self; inventory := inventory self |}.

Definition set_xp_req_to_level (r : Z) (self : t) : t :=
  {| base := base self; strength := strength self;
     min_damage := min_damage self; max_damage := max_damage self;
     equipped_weapon := equipped_weapon self; level := level self;
     experience := experience self; xp_req_to_level := r;
     armor := armor self; current_zone := current_zone self;
     current_subzone := current_subzone self; _LEVEL_STATS := _LEVEL_STATS self;
     _REQUIRED_XP_TO_LEVEL := _REQUIRED_XP_TO_LEVEL self;
     quest_log := quest_log self; inventory := inventory self |}.

Definition set_quest_log (ql : gmap Z Quest.t) (self : t) : t :=
  {| base := base self; strength := strength self;
     min_damage := min_damage self; max_damage := max_damage self;
     equipped_weapon := equipped_weapon self; level := level self;
     experience := experience self; xp_req_to_level := xp_req_to_level self;
     armor := armor self; current_zone := current_zone self;
     current_subzone := current_subzone self; _LEVEL_STATS := _LEVEL_STATS self;
     _REQUIRED_XP_TO_LEVEL := _REQUIRED_XP_TO_LEVEL self;
     quest_log := ql; inventory := inventory self |}.

Definition set_inventory (inv : gmap string InventoryEntry) (self : t) : t :=
  {| base := base self; strength := strength self;
     min_damage := min_damage self; max_damage := max_damage self;
     equipped_weapon := equipped_weapon self; level := level self;
     experience := experience self; xp_req_to_level := xp_req_to_level self;
     armor := armor self; current_zone := current_zone self;
     current_subzone := current_subzone self; _LEVEL_STATS := _LEVEL_STATS self;
     _REQUIRED_XP_TO_LEVEL := _REQUIRED_XP_TO_LEVEL self;
     quest_log := quest_log self; inventory := inv |}.

Definition health (self : t) : Q := LivingThing.health (base self).

Definition is_alive (self : t) : bool := LivingThing.is_alive (base self).

Definition get_auto_attack_damage (self : t) (target_level : Z) : M Rng Damage :=
  let level_difference := level self - target_level in
  do damage_to_deal <- randint (py_int (min_damage self)) (py_int (max_damage self) + 1) in
  ret {| phys_dmg := scale_by_level level_difference (inject_Z damage_to_deal) |}.

(** Percentage to reduce = armor / (armor + 400 + 85 * attacker level);
    the division raises on a zero denominator. *)
Definition _apply_armor_reduction (damage : Damage) (attacker_level : Z) : M t Damage :=
  do self <- get in
  let denominator := armor self + 400 + 85 * attacker_level in
  if denominator =? 0 then raise ZeroDivisionError
  else
    let reduction_percentage := (inject_Z (armor self) / inject_Z denominator)%Q in
    let damage_to_deduct := (phys_dmg damage * reduction_percentage)%Q in
    let reduced_damage := (phys_dmg damage - damage_to_deduct)%Q in
    ret {| phys_dmg := reduced_damage |}.

Definition _die : M t unit :=
  modify (fun self => set_base (LivingThing._die (base self)) self).

Definition check_if_dead : M t unit := LivingThing.check_if_dead base _die.

Definition take_attack (monster_name : string) (damage : Damage) (attacker_level : Z)
    : M t unit :=
  do damage <- _apply_armor_reduction damage attacker_level in
  modify (fun self =>
    set_base (LivingThing.set_health (health_minus (health self) damage) (base self)) self)
  >> check_if_dead.

Definition _regenerate : M t unit :=
  modify (fun self => set_base (LivingThing._regenerate (base self)) self).

Definition _lookup_next_xp_level_req : M t Z :=
  do self <- get in subscript (_REQUIRED_XP_TO_LEVEL self) (level self).

Definition _level_up : M t unit :=
  modify (fun self => set_level (level self + 1) self) >>
  do self <- get in
  do current_level_stats <- subscript (_LEVEL_STATS self) (level self) in
  do hp_increase_amount <- subscript current_level_stats KEY_LEVEL_STATS_HEALTH in
  do mana_increase_amount <- subscript current_level_stats KEY_LEVEL_STATS_MANA in
  do strength_increase_amount <- subscript current_level_stats KEY_LEVEL_STATS_STRENGTH in
  do armor_increase_amount <- subscript current_level_stats KEY_LEVEL_STATS_ARMOR in
  modify (fun self =>
    set_base (LivingThing.set_max
                (LivingThing.max_health (base self) + inject_Z hp_increase_amount)%Q
                (LivingThing.max_mana (base self) + inject_Z mana_increase_amount)%Q
                (base self)) self) >>
  modify (fun self =>
    set_stats (strength self + strength_increase_amount)
              (armor self + armor_increase_amount) self) >>
  _regenerate.

Definition check_if_levelup : M t unit :=
  do self <- get in
  if xp_req_to_level self <=? experience self then
    _level_up >>
    modify (set_experience 0) >>
    (do req <- _lookup_next_xp_level_req in modify (set_xp_req_to_level req))
  else ret tt.

Definition _award_experience (xp_reward : Z) : M t unit :=
  modify (fun self => set_experience (experience self + xp_reward) self) >>
  check_if_levelup.

Definition add_quest (quest : Quest.t) : M t unit :=
  modify (fun self => set_quest_log (<[ Quest.ID quest := quest ]> (quest_log self)) self).

(** [del self.quest_log[quest.ID]] raises when the id is not in the log. *)
Definition _complete_quest (quest : Quest.t) : M t unit :=
  let xp_reward := Quest.give_reward quest in
  (do self <- get in
   match quest_log self !! Quest.ID quest with
   | Some _ => modify (set_quest_log (delete (Quest.ID quest) (quest_log self)))
   | None => raise KeyError
   end) >>
  _award_experience xp_reward.

Definition _check_if_quest_completed (quest : Quest.t) : M t unit :=
  if Quest.is_completed quest then _complete_quest quest else ret tt.

(** Lines 401 to 408 of [award_monster_kill]: the reward and the bonus for
    a kill at the given level difference. *)
Definition kill_rewards (level_difference xp_reward : Z) : Z * Z :=
  if 5 <=? level_difference then (0, 0)
  else if level_difference <? 0 then
    let percentage_mod := (inject_Z (Z.abs level_difference) * tenth)%Q in
    (xp_reward, 0 + py_int (inject_Z xp_reward * percentage_mod))
  else (xp_reward, 0).

(** Lines 417 to 424: the kill counts towards the quest of the monster. *)
Definition update_kill_quest (monster_quest_ID : Z) : M t unit :=
  do self <- get in
  if negb (monster_quest_ID =? 0) && bool_decide (is_Some (quest_log self !! monster_quest_ID))
  then
    do quest <- subscript (quest_log self) monster_quest_ID in
    let quest := Quest.update_kills quest in
    modify (fun self => set_quest_log (<[ monster_quest_ID := quest ]> (quest_log self)) self) >>
    _check_if_quest_completed quest
  else ret tt.

Definition award_monster_kill (monster : Monster.t) : M t unit :=
  do self <- get in
  let monster_level := Monster.level monster in
  let xp_reward := Monster.xp_to_give monster in
  let monster_quest_ID := Monster.quest_relation_ID monster in
  let level_difference := level self - monster_level in
  let rewards := kill_rewards level_difference xp_reward in
  _award_experience (fst rewards + snd rewards) >>
  update_kill_quest monster_quest_ID.

(** [self.inventory['gold'] += gold] *)
Definition award_gold (gold : Z) : M t unit :=
  do self <- get in
  do entry <- subscript (inventory self) "gold"%string in
  match entry with
  | Gold g => modify (set_inventory (<[ "gold"%string := Gold (g + gold) ]> (inventory self)))
  | Stack _ _ => raise TypeError
  end.

(** Lines 434 to 439 of [award_item].  In the [else] branch the tuple
    read from the inventory rebinds both [item] and [item_count]; the
    write back goes under the name of the item read. *)
Definition store_item (item : Item) (item_count : Z) : M t unit :=
  do self <- get in
  match inventory self !! item_name item with
  | None =>
      modify (set_inventory (<[ item_name item := Stack item item_count ]> (inventory self)))
  | Some (Stack item item_count) =>
      modify (set_inventory
                (<[ item_name item := Stack item (item_count + item_count) ]> (inventory self)))
  | Some (Gold _) => raise TypeError
  end.

(** Lines 441 to 450: the item counts towards the quest it belongs to. *)
Definition update_item_quest (item_quest_id : Z) : M t unit :=
  do self <- get in
  if negb (item_quest_id =? 0) && bool_decide (is_Some (quest_log self !! item_quest_id))
  then
    do temp_quest <- subscript (quest_log self) item_quest_id in
    let temp_quest := Quest.check_if_complete temp_quest (inventory self) in
    modify (fun self => set_quest_log (<[ item_quest_id := temp_quest ]> (quest_log self)) self) >>
    _check_if_quest_completed temp_quest
  else ret tt.

Definition award_item (item : Item) (item_count : Z) : M t unit :=
  let item_quest_id := quest_ID item in
  store_item item item_count >>
  update_item_quest item_quest_id.

(** The methods a character inherits from [LivingThing], on its base fields. *)
Definition enter_combat (self : t) : t :=
  set_base (LivingThing.enter_combat (base self)) self.

Definition leave_combat (self : t) : t :=
  set_base (LivingThing.leave_combat (base self)) self.

Definition revive (self : t) : t :=
  set_base (LivingThing.revive (base self)) self.

Definition set_damage (lo hi : Q) (self : t) : t :=
  {| base := base self; strength := strength self;
     min_damage := lo; max_damage := hi;
     equipped_weapon := equipped_weapon self; level := level self;
     experience := experience self; xp_req_to_level := xp_req_to_level self;
     armor := armor self; current_zone := current_zone self;
     current_subzone := current_subzone self; _LEVEL_STATS := _LEVEL_STATS self;
     _REQUIRED_XP_TO_LEVEL := _REQUIRED_XP_TO_LEVEL self;
     quest_log := quest_log self; inventory := inventory self |}.

Definition set_equipped_weapon (w : Weapon) (self : t) : t :=
  {| base := base self; strength := strength self;
     min_damage := min_damage self; max_damage := max_damage self;
     equipped_weapon := w; level := level self;
     experience := experience self; xp_req_to_level := xp_req_to_level self;
     armor := armor self; current_zone := current_zone self;
     current_subzone := current_subzone self; _LEVEL_STATS := _LEVEL_STATS self;
     _REQUIRED_XP_TO_LEVEL := _REQUIRED_XP_TO_LEVEL self;
     quest_log := quest_log self; inventory := inventory self |}.

(** [_calculate_damage]: the weapon's range shifted by a tenth of the
    strength. *)
Definition _calculate_damage (weapon : Weapon) (self : t) : t :=
  set_damage (weapon_min_damage weapon + tenth * inject_Z (strength self))%Q
             (weapon_max_damage weapon + tenth * inject_Z (strength self))%Q self.

Definition equip_weapon (weapon : Weapon) (self : t) : t :=
  let self := set_equipped_weapon weapon self in
  _calculate_damage (equipped_weapon self) self.

(** [self.inventory['gold'] >= gold] *)
Definition has_enough_gold (gold : Z) : M t bool :=
  do self <- get in
  do entry <- subscript (inventory self) "gold"%string in
  match entry with
  | Gold g => ret (gold <=? g)
  | Stack _ _ => raise TypeError
  end.

(** [buy_item]: the price leaves the gold, then the item is awarded. *)
Definition buy_item (sale : Item * Z * Z) : M t unit :=
  let '(item, item_count, item_price) := sale in
  (do self <- get in
   do entry <- subscript (inventory self) "gold"%string in
   match entry with
   | Gold g =>
       modify (set_inventory (<[ "gold"%string := Gold (g - item_price) ]> (inventory self)))
   | Stack _ _ => raise TypeError
   end) >>
  award_item item item_count.

End Character.

(** [Monster.attack]: the swing goes through the victim's [take_attack]. *)
Definition Monster_attack (self : Monster.t) : M (Character.t * Rng) unit :=
  do victim <- get in
  do monster_swing <- on_snd (Monster.get_auto_attack_damage self (Character.level (fst victim))) in
  on_fst (Character.take_attack (LivingThing.name (Monster.base self)) monster_swing
                                (Monster.level self)).

(** ** [class FriendlyNPC] and [class VendorNPC] *)
Module VendorNPC.

(** The fields [FriendlyNPC.__init__] keeps (it drops the quest relation
    and the loot table it is given), with the vendor's entry and stock; a
    stock entry is a tuple [(item, count)]. *)
Record t : Type := {
  base : LivingThing.t;
  level : Z;
  min_damage : Z;
  max_damage : Z;
  gossip : string;
  entry : Z;
  inventory : gmap string (Item * Z)
}.

(** [load_vendor_inventory] reads the stock from the database; it enters
    as data. *)
Definition __init__ (load_vendor_inventory : Z -> gmap string (Item * Z))
    (name : string) (entry : Z) (health mana : Q) (level min_damage max_damage : Z)
    (gossip : string) : t :=
  {| base := LivingThing.__init__ name health mana;
     level := level; min_damage := min_damage; max_damage := max_damage;
     gossip := gossip; entry := entry;
     inventory := load_vendor_inventory entry |}.

Definition set_inventory (inv : gmap string (Item * Z)) (self : t) : t :=
  {| base := base self; level := level self; min_damage := min_damage self;
     max_damage := max_damage self; gossip := gossip self; entry := entry self;
     inventory := inv |}.

Definition has_item (item_name : string) (self : t) : bool :=
  bool_decide (is_Some (inventory self !! item_name)).

Definition get_item_price (item_name : string) : M t Z :=
  do self <- get in
  do stock <- subscript (inventory self) item_name in
  ret (buy_price (fst stock)).

(** Returns the item, its count and its price, and takes the entry out of
    the stock. *)
Definition sell_item (item_name : string) : M t (Item * Z * Z) :=
  do self <- get in
  do stock <- subscript (inventory self) item_name in
  let item := fst stock in
  let item_count := snd stock in
  let item_price := buy_price item in
  modify (set_inventory (delete item_name (inventory self))) >>
  ret (item, item_count, item_price).

End VendorNPC.

(** ** [CreatureTemplateSchema.build_vendor_inventory] *)

(** A row of the vendor's products: the item, already converted to an
    [Item], its count, and the price column, which may be empty. *)
Record Product : Type := {
  product_item : Item;
  product_item_count : Z;
  product_price : option Z
}.

(** [if product.price]: an empty or zero price does not override. *)
Definition price_overrides (price : option Z) : bool :=
  match price with
  | Some p => negb (p =? 0)
  | None => false
  end.

Definition with_buy_price (price : Z) (item : Item) : Item :=
  {| item_name := item_name item; buy_price := price; quest_ID := quest_ID item |}.

(** The item of a product as it enters the stock. *)
Definition priced_item (product : Product) : Item :=
  if price_overrides (product_price product)
  then with_buy_price (default 0 (product_price product)) (product_item product)
  else product_item product.

(** The loop over the products, from the inventory built so far. *)
Fixpoint stock_products (products : list Product) (vendor_inventory : gmap string (Item * Z))
    : gmap string (Item * Z) :=
  match products with
  | [] => vendor_inventory
  | product :: rest =>
      let item := priced_item product in
      let item_count := product_item_count product in
      stock_products rest (<[ item_name item := (item, item_count) ]> vendor_inventory)
  end.

Definition build_vendor_inventory (products : list Product) : gmap string (Item * Z) :=
  stock_products products ∅.

(** * Notions the statements use *)

(** A computation preserves an observation [f] of the state when no run
    of it, normal or exceptional, changes [f]. *)
Definition preserves {St A X : Type} (f : St -> X) (m : M St A) : Prop :=
  forall s, f (state_of (m s)) = f s.

(** The monster right after [self.health -= damage]. *)
Definition Monster_hit (damage : Damage) (m : Monster.t) : Monster.t :=
  Monster.set_base
    (LivingThing.set_health (health_minus (Monster.health m) damage) (Monster.base m)) m.

(** The monster right after [super()._die()]. *)
Definition Monster_dead (m : Monster.t) : Monster.t :=
  Monster.set_base (LivingThing._die (Monster.base m)) m.

(** The monster with the item of the given id written into its loot. *)
Definition with_drop (db : Content) (item_ID : Z) (m : Monster.t) : Monster.t :=
  Monster.set_loot
    (<[ item_name (load_item db item_ID) := LootItem (load_item db item_ID) ]> (Monster.loot m)) m.



(** What a level-up that finds its table entries makes of a character. *)
Definition leveled_up (h m s a : Z) (c : Character.t) : Character.t :=
  let c := Character.set_level (Character.level c + 1) c in
  let c := Character.set_base
             (LivingThing.set_max
                (LivingThing.max_health (Character.base c) + inject_Z h)%Q
                (LivingThing.max_mana (Character.base c) + inject_Z m)%Q
                (Character.base c)) c in
  let c := Character.set_stats (Character.strength c + s) (Character.armor c + a) c in
  Character.set_base (LivingThing._regenerate (Character.base c)) c.

(** The outcomes of the level-up check. *)
Inductive levelup_outcome (c : Character.t) : result unit * Character.t -> Prop :=
| no_levelup :
    Character.experience c < Character.xp_req_to_level c ->
    levelup_outcome c (Ok tt, c)
| one_levelup (c' : Character.t) (req : Z) :
    Character.xp_req_to_level c <= Character.experience c ->
    Character.level c' = Character.level c + 1 ->
    Character.experience c' = 0 ->
    Character.xp_req_to_level c' = req ->
    Character._REQUIRED_XP_TO_LEVEL c !! (Character.level c + 1) = Some req ->
    levelup_outcome c (Ok tt, c')
| failed_levelup (e : Exn) (c' : Character.t) :
    Character.xp_req_to_level c <= Character.experience c ->
    levelup_outcome c (Raise e, c').

(** ** Sample content and entities *)

(** A tape that plays the given raw draws, then zeros. *)
Definition tape_of (draws : list N) : Rng :=
  {| tape := fun i => nth i draws 0%N; pos := 0 |}.

(** The raw draw of the fraction nine tenths. *)
Definition nine_tenths_raw : N := 8106479329266893.

(** The raw draw of the float [0.4], a fraction just above two fifths. *)
Definition two_fifths_raw : N := 3602879701896397.

Definition wolf_meat : Item := {| item_name := "Wolf Meat"; buy_price := 1; quest_ID := 0 |}.

Definition wolf_fang : Item := {| item_name := "Wolf Fang"; buy_price := 4; quest_ID := 0 |}.

(** Loot table 1 drops Wolf Meat half of the time, table 2 lists it with
    chance 0, table 3 lists Wolf Fang with chance 100. *)
Definition sample_db : Content := {|
  CREATURE_XP_REWARD_DICTIONARY := {[ 1 := 50; 4 := 120 ]};
  CREATURE_GOLD_REWARD_DICTIONARY := {[ 1 := (2, 5); 4 := (6, 9) ]};
  load_loot_table := fun table =>
    if table =? 1 then [(7, 50)]
    else if table =? 2 then [(7, 0)]
    else if table =? 3 then [(8, 100)]
    else [];
  load_item := fun item_ID => if item_ID =? 7 then wolf_meat else wolf_fang;
  load_character_level_stats :=
    {[ 2 := {[ "health"%string := 10; "mana"%string := 5;
               "strength"%string := 1; "armor"%string := 3 ]} ]};
  load_character_xp_requirements := {[ 1 := 400; 2 := 800 ]}
|}.

Definition sample_wolf (level xp loot_table : Z) : Monster.t := {|
  Monster.base := LivingThing.__init__ "Wolf" 10 10;
  Monster.monster_id := 1; Monster.level := level;
  Monster.min_damage := 0; Monster.max_damage := 1;
  Monster.xp_to_give := xp; Monster.gossip := "";
  Monster._gold_to_give := 3; Monster.quest_relation_ID := 0;
  Monster.loot_table_ID := loot_table;
  Monster.loot := {[ "gold"%string := LootGold 3 ]}
|}.

Definition wolf : Monster.t := sample_wolf 1 50 1.




(** The wolf killed by a blow of 12 while the loot roll draws 0.9: no
    meat drops.  The next draw of the tape is 0. *)
Definition slain_wolf : Monster.t * Rng :=
  state_of (Monster.take_attack sample_db {| phys_dmg := 12 |}
              (wolf, tape_of [nine_tenths_raw])).

Definition hero : Character.t := Character.__init__ sample_db "Hero" 100 50 10.

Definition veteran : Character.t := Character.set_level 6 hero.


Definition wolf_quest : Quest.t := {|
  Quest.ID := 3; Quest.name := "A Threat Within"; Quest.monster_to_kill := "Wolf";
  Quest.needed_kills := 2; Quest.kills := 2; Quest.required_items := [];
  Quest.xp_reward := 500; Quest.is_completed := true
|}.


Definition hero_with_meat : Character.t := state_of (Character.award_item wolf_meat 3 hero).

Definition champion : Character.t := Character.set_level 11 hero.

(** A character whose armor makes the denominator of the armor formula 0
    against an attacker of level 1. *)
Definition cursed_hero : Character.t := Character.set_stats 10 (-485) hero.

Definition armored_hero : Character.t := Character.set_stats 10 100 hero.

(** The level-stats entry of the sample tables for level 2, and the same
    without its armor. *)
Definition level_two_stats : gmap string Z :=
  {[ "health"%string := 10; "mana"%string := 5;
     "strength"%string := 1; "armor"%string := 3 ]}.

Definition armorless_stats : gmap string Z :=
  {[ "health"%string := 10; "mana"%string := 5; "strength"%string := 1 ]}.

(** Tables whose level-stats entry for level 2 lacks the armor key. *)
Definition sparse_db : Content := {|
  CREATURE_XP_REWARD_DICTIONARY := ∅;
  CREATURE_GOLD_REWARD_DICTIONARY := ∅;
  load_loot_table := fun _ => [];
  load_item := fun _ => wolf_meat;
  load_character_level_stats :=
    {[ 2 := {[ "health"%string := 10; "mana"%string := 5; "strength"%string := 1 ]} ]};
  load_character_xp_requirements := {[ 1 := 400; 2 := 800 ]}
|}.

(** Tables whose requirement table stops at level 1. *)
Definition short_db : Content := {|
  CREATURE_XP_REWARD_DICTIONARY := ∅;
  CREATURE_GOLD_REWARD_DICTIONARY := ∅;
  load_loot_table := fun _ => [];
  load_item := fun _ => wolf_meat;
  load_character_level_stats :=
    {[ 2 := {[ "health"%string := 10; "mana"%string := 5;
               "strength"%string := 1; "armor"%string := 3 ]} ]};
  load_character_xp_requirements := {[ 1 := 400 ]}
|}.

Definition sparse_hero : Character.t := Character.__init__ sparse_db "Hero" 100 50 10.

Definition short_hero : Character.t := Character.__init__ short_db "Hero" 100 50 10.

Definition rusty_sword : Weapon :=
  {| weapon_item := {| item_name := "Rusty Sword"; buy_price := 3; quest_ID := 0 |};
     weapon_min_damage := 2; weapon_max_damage := 4 |}.

(** A vendor's products: Wolf Meat twice, the second row priced 9, and
    Wolf Fang with a price of 0. *)
Definition sample_products : list Product :=
  [ {| product_item := wolf_meat; product_item_count := 5; product_price := None |};
    {| product_item := wolf_fang; product_item_count := 1; product_price := Some 0 |};
    {| product_item := wolf_meat; product_item_count := 7; product_price := Some 9 |} ].

Definition grocer : VendorNPC.t :=
  VendorNPC.__init__ (fun _ => build_vendor_inventory sample_products)
    "Grocer" 2 10 10 1 0 1 "Fresh meat".

(** The DoT of the tests. *)
Definition dot_dummy : DoT.t :=
  {| DoT.name := "Audi"; DoT.damage := {| phys_dmg := 3 |};
     DoT.duration := 5; DoT.level := 10 |}.

(** * Properties *)

(** ** The monad *)

Lemma bind_ok {St A B : Type} (m : M St A) (k : A -> M St B) (s s' : St) (a : A) :
  m s = (Ok a, s') -> bind m k s = k a s'.
Proof. intros E. unfold bind. now rewrite E. Qed.

Lemma bind_raise {St A B : Type} (m : M St A) (k : A -> M St B) (s s' : St) (e : Exn) :
  m s = (Raise e, s') -> bind m k s = (Raise e, s').
Proof. intros E. unfold bind. now rewrite E. Qed.

Lemma preserves_ret {St A X : Type} (f : St -> X) (a : A) : preserves f (ret a).
Proof. intros s. reflexivity. Qed.

Lemma preserves_raise {St A X : Type} (f : St -> X) (e : Exn) :
  preserves f (raise (A := A) e).
Proof. intros s. reflexivity. Qed.

Lemma preserves_get {St X : Type} (f : St -> X) : preserves f get.
Proof. intros s. reflexivity. Qed.

Lemma preserves_modify {St X : Type} (f : St -> X) (g : St -> St) :
  (forall s, f (g s) = f s) -> preserves f (modify g).
Proof. intros H s. apply H. Qed.

Lemma preserves_bind {St A B X : Type} (f : St -> X) (m : M St A) (k : A -> M St B) :
  preserves f m -> (forall a, preserves f (k a)) -> preserves f (bind m k).
Proof.
  intros Hm Hk s. unfold bind. specialize (Hm s).
  destruct (m s) as [[a | e] s']; cbn in *.
  - now rewrite Hk.
  - exact Hm.
Qed.

Lemma preserves_subscript {St X : Type} `{Countable K} {V : Type}
    (f : St -> X) (d : gmap K V) (k : K) :
  preserves f (subscript (St := St) d k).
Proof. unfold subscript. destruct (d !! k); [apply preserves_ret | apply preserves_raise]. Qed.

(** [frame] walks down the binds and branches of a computation and closes
    each leaf with the lemmas of the hint base. *)
Create HintDb frame discriminated.
#[export] Hint Resolve preserves_ret preserves_raise preserves_get preserves_subscript : frame.

Ltac frame :=
  repeat first
    [ solve [ eauto 2 with frame ]
    | apply preserves_modify; intros; reflexivity
    | match goal with
      | |- preserves _ (if ?b then _ else _) => destruct b
      | |- preserves _ (match ?x with _ => _ end) => destruct x
      | |- preserves _ (bind _ _) => apply preserves_bind; [ | intros ? ]
      end ].

(** ** Numbers *)

Lemma py_int_inject_Z (z : Z) : py_int (inject_Z z) = z.
Proof. unfold py_int. cbn. apply Z.quot_1_r. Qed.

(** Truncation and floor agree on what is not negative. *)
Lemma py_int_floor (x : Q) : (0 <= x)%Q -> py_int x = floor x.
Proof.
  destruct x as [n d]. unfold Qle, py_int, floor. cbn. intros Hn.
  rewrite Z.mul_1_r in Hn. apply Z.quot_div_nonneg; lia.
Qed.

(** ** The random source *)


Lemma randint_in_range (a b : Z) (g : Rng) :
  a <= b -> exists n g', randint a b g = (Ok n, g') /\ a <= n <= b.
Proof.
  intros Hab. unfold randint, next_raw.
  destruct (b <? a) eqn:E; [lia |].
  eexists _, _. split; [reflexivity |].
  pose proof (Z.mod_pos_bound (Z.of_N (tape g (pos g))) (b - a + 1)). lia.
Qed.

Lemma randint_constant (a b : Z) (n : N) :
  a <= b -> Z.of_N n <= b - a ->
  fst (randint a b (constant_rng n)) = Ok (a + Z.of_N n).
Proof.
  intros Hab Hn. unfold randint, next_raw, constant_rng. cbn.
  destruct (b <? a) eqn:E; [lia |]. cbn.
  rewrite Z.mod_small by lia. reflexivity.
Qed.

(** ** Monsters: what an attack and the loot roll change *)

Lemma Monster_take_attack_unfold (db : Content) (damage : Damage) (m : Monster.t) (g : Rng) :
  Monster.take_attack db damage (m, g) =
  if Qle_bool (health_minus (Monster.health m) damage) 0
  then Monster.roll_each db (load_loot_table db (Monster.loot_table_ID m))
         (Monster_dead (Monster_hit damage m), g)
  else (Ok tt, (Monster_hit damage m, g)).
Proof.
  unfold Monster.take_attack, Monster.check_if_dead, LivingThing.check_if_dead,
    Monster._die, Monster._drop_loot, bind, on_fst, modify, get, ret. cbn.
  destruct (Qle_bool _ 0); reflexivity.
Qed.

(** The loot roll returns normally and writes nothing but the loot dict,
    from which it removes no key. *)
Lemma roll_each_frame (db : Content) (loot_list : list (Z * Z)) :
  forall (m : Monster.t) (g : Rng),
  exists (l' : gmap string LootEntry) (g' : Rng),
    Monster.roll_each db loot_list (m, g) = (Ok tt, (Monster.set_loot l' m, g'))
    /\ dom (Monster.loot m) ⊆ dom l'.
Proof.
  induction loot_list as [| [item_ID chance] rest IH]; intros m g.
  - exists (Monster.loot m), g. split; [destruct m; reflexivity | reflexivity].
  - cbn [Monster.roll_each]. unfold bind at 1.
    unfold on_snd, random, next_raw. cbn [snd fst].
    set (r := (Z.of_N _ # two53)%Q). set (g1 := Build_Rng _ _).
    destruct (Qle_bool (round_to_float (r * 100)) (inject_Z chance)).
    + unfold bind, on_fst, modify. cbn [fst snd].
      destruct (IH (Monster.set_loot
                      (<[ item_name (load_item db item_ID) := LootItem (load_item db item_ID) ]>
                         (Monster.loot m)) m) g1) as (l' & g' & E & Hdom).
      exists l', g'. split.
      * rewrite E. destruct m; reflexivity.
      * etransitivity; [| exact Hdom]. cbn. rewrite dom_insert. set_solver.
    + unfold bind, ret.
      destruct (IH m g1) as (l' & g' & E & Hdom).
      exists l', g'. split; [now rewrite E | exact Hdom].
Qed.

(** ** Characters: what the death check changes *)

Lemma Character_check_if_dead_unfold (c : Character.t) :
  Character.check_if_dead c =
  (Ok tt, if Qle_bool (Character.health c) 0
          then Character.set_base (LivingThing._die (Character.base c)) c else c).
Proof.
  unfold Character.check_if_dead, LivingThing.check_if_dead, Character._die, modify, ret.
  unfold Character.health. destruct (Qle_bool _ 0); reflexivity.
Qed.

Lemma armor_denominator_positive (armor attacker_level : Z) :
  0 <= armor -> 0 <= attacker_level -> 0 < armor + 400 + 85 * attacker_level.
Proof. lia. Qed.


(** C2.  With armor and attacker level not negative, the armor reduction
    returns a new damage equal to raw * (1 - armor / (armor + 400 + 85 *
    attacker level)) and leaves the character as it is; with no armor the
    damage comes back unchanged.  A character's [take_attack] subtracts
    the reduced damage from health; a monster's [take_attack] subtracts the
    raw damage, with no reduction. *)
Theorem armor_mitigation_only_for_characters
    (c : Character.t) (raw : Damage) (attacker_level : Z) :
  0 <= Character.armor c -> 0 <= attacker_level ->
  exists reduced : Damage,
    Character._apply_armor_reduction raw attacker_level c = (Ok reduced, c)
    /\ (phys_dmg reduced ==
        phys_dmg raw *
        (1 - inject_Z (Character.armor c)
             / inject_Z (Character.armor c + 400 + 85 * attacker_level)))%Q
    /\ (Character.armor c = 0 -> (phys_dmg reduced == phys_dmg raw)%Q)
    /\ (forall monster_name : string,
          returned (Character.take_attack monster_name raw attacker_level c) = true
          /\ Character.health
               (state_of (Character.take_attack monster_name raw attacker_level c))
             = (Character.health c - phys_dmg reduced)%Q)
    /\ (forall (db : Content) (m : Monster.t) (g : Rng),
          returned (Monster.take_attack db raw (m, g)) = true
          /\ Monster.health (fst (state_of (Monster.take_attack db raw (m, g))))
             = (Monster.health m - phys_dmg raw)%Q).
Proof.
  intros Harmor Hlevel.
  pose proof (armor_denominator_positive _ _ Harmor Hlevel) as Hden.
  assert (E : Character._apply_armor_reduction raw attacker_level c =
              (Ok {| phys_dmg :=
                       (phys_dmg raw - phys_dmg raw *
                          (inject_Z (Character.armor c)
                           / inject_Z (Character.armor c + 400 + 85 * attacker_level)))%Q |},
               c)).
  { unfold Character._apply_armor_reduction, bind, get.
    destruct (Character.armor c + 400 + 85 * attacker_level =? 0) eqn:Ez; [lia | reflexivity]. }
  eexists. split; [exact E |]. cbn [phys_dmg]. repeat split.
  - ring.
  - intros H0. rewrite H0. unfold Qdiv. rewrite Qmult_0_l, Qmult_0_r. ring.
  - unfold Character.take_attack. rewrite (bind_ok _ _ _ _ _ E).
    unfold bind, modify. rewrite Character_check_if_dead_unfold. reflexivity.
  - unfold Character.take_attack. rewrite (bind_ok _ _ _ _ _ E).
    unfold bind, modify. rewrite Character_check_if_dead_unfold. cbn [state_of snd].
    destruct (Qle_bool _ 0); reflexivity.
  - rewrite Monster_take_attack_unfold.
    destruct (Qle_bool _ 0); [| reflexivity].
    destruct (roll_each_frame db (load_loot_table db (Monster.loot_table_ID m))
                (Monster_dead (Monster_hit raw m)) g) as (l' & g' & Er & _).
    now rewrite Er.
  - rewrite Monster_take_attack_unfold.
    destruct (Qle_bool _ 0); [| reflexivity].
    destruct (roll_each_frame db (load_loot_table db (Monster.loot_table_ID m))
                (Monster_dead (Monster_hit raw m)) g) as (l' & g' & Er & _).
    now rewrite Er.
Qed.

(** The hero, with 75 armor, struck for 10 by an attacker of level 1. *)
Lemma armor_mitigation_on_hero :
  0 <= Character.armor hero /\ 0 <= 1
  /\ exists reduced : Damage,
       Character._apply_armor_reduction {| phys_dmg := 10 |} 1 hero = (Ok reduced, hero)
       /\ (phys_dmg reduced ==
           10 * (1 - inject_Z (Character.armor hero)
                     / inject_Z (Character.armor hero + 400 + 85 * 1)))%Q.
Proof.
  assert (Harmor : 0 <= Character.armor hero) by (cbn; lia).
  assert (Hlevel : 0 <= 1) by lia.
  destruct (armor_mitigation_only_for_characters hero {| phys_dmg := 10 |} 1 Harmor Hlevel)
    as (reduced & E & Hformula & _).
  split; [exact Harmor | split; [exact Hlevel |]].
  exists reduced. split; [exact E | exact Hformula].
Defined.

(** ** Characters: experience and levels *)

Lemma _level_up_returns (c : Character.t) (stats : gmap string Z) (h m s a : Z) :
  Character._LEVEL_STATS c !! (Character.level c + 1) = Some stats ->
  stats !! Character.KEY_LEVEL_STATS_HEALTH = Some h ->
  stats !! Character.KEY_LEVEL_STATS_MANA = Some m ->
  stats !! Character.KEY_LEVEL_STATS_STRENGTH = Some s ->
  stats !! Character.KEY_LEVEL_STATS_ARMOR = Some a ->
  Character._level_up c = (Ok tt, leveled_up h m s a c).
Proof.
  intros Hstats Hh Hm Hs Ha.
  unfold Character._level_up, bind, modify, get, subscript. cbn.
  rewrite Hstats. cbn. rewrite Hh. cbn. rewrite Hm. cbn. rewrite Hs. cbn. rewrite Ha.
  reflexivity.
Qed.

(** Whether it returns or raises, [_level_up] adds one to the level and
    leaves experience, the requirement table, the quest log and the
    inventory alone. *)
Lemma _level_up_level (c : Character.t) :
  Character.level (state_of (Character._level_up c)) = Character.level c + 1.
Proof.
  unfold Character._level_up, bind, modify, get, subscript, raise, ret,
    Character._regenerate. cbn.
  repeat match goal with
         | |- context [match ?d !! ?k with _ => _ end] => destruct (d !! k); cbn
         end; reflexivity.
Qed.

Lemma _level_up_preserves {X : Type} (f : Character.t -> X) :
  (forall l c, f (Character.set_level l c) = f c) ->
  (forall b c, f (Character.set_base b c) = f c) ->
  (forall s a c, f (Character.set_stats s a c) = f c) ->
  preserves f Character._level_up.
Proof.
  intros Hl Hb Hs. unfold Character._level_up, Character._regenerate.
  repeat first
    [ apply preserves_subscript | apply preserves_get
    | apply preserves_modify; intros; rewrite ?Hl, ?Hb, ?Hs; reflexivity
    | apply preserves_bind; [ | intros ? ] ].
Qed.

Lemma check_if_levelup_outcome (c : Character.t) :
  levelup_outcome c (Character.check_if_levelup c).
Proof.
  unfold Character.check_if_levelup, bind at 1, get at 1.
  destruct (Character.xp_req_to_level c <=? Character.experience c) eqn:E.
  2:{ apply no_levelup. lia. }
  apply Z.leb_le in E.
  pose proof (_level_up_level c) as Hlevel.
  pose proof (_level_up_preserves Character._REQUIRED_XP_TO_LEVEL
                (fun _ _ => eq_refl) (fun _ _ => eq_refl) (fun _ _ _ => eq_refl) c) as Hreq.
  unfold bind at 1. unfold bind at 1.
  destruct (Character._level_up c) as [[[] | e] c1]; cbn in Hlevel, Hreq.
  2:{ now apply failed_levelup. }
  unfold modify at 1. unfold bind, Character._lookup_next_xp_level_req, get, subscript.
  cbn. rewrite Hreq, Hlevel.
  destruct (Character._REQUIRED_XP_TO_LEVEL c !! (Character.level c + 1)) as [req |] eqn:Et.
  - cbn. eapply one_levelup with (req := req); try reflexivity; assumption.
  - cbn. now apply failed_levelup.
Qed.

Lemma _award_experience_unfold (xp_reward : Z) (c : Character.t) :
  Character._award_experience xp_reward c =
  Character.check_if_levelup
    (Character.set_experience (Character.experience c + xp_reward) c).
Proof. reflexivity. Qed.

(** Awarding experience writes neither the quest log nor the inventory,
    nor any other field that the level-up and the experience counters do
    not own. *)
Lemma _award_experience_preserves {X : Type} (f : Character.t -> X) (xp_reward : Z) :
  (forall l c, f (Character.set_level l c) = f c) ->
  (forall b c, f (Character.set_base b c) = f c) ->
  (forall s a c, f (Character.set_stats s a c) = f c) ->
  (forall e c, f (Character.set_experience e c) = f c) ->
  (forall r c, f (Character.set_xp_req_to_level r c) = f c) ->
  preserves f (Character._award_experience xp_reward).
Proof.
  intros Hl Hb Hs He Hr.
  unfold Character._award_experience, Character.check_if_levelup,
    Character._lookup_next_xp_level_req.
  apply preserves_bind; [apply preserves_modify; intros; apply He | intros _].
  apply preserves_bind; [apply preserves_get | intros self].
  destruct (_ <=? _); [| apply preserves_ret].
  apply preserves_bind; [| intros _].
  - apply preserves_bind; [now apply _level_up_preserves | intros _].
    apply preserves_modify; intros; apply He.
  - apply preserves_bind; [| intros req; apply preserves_modify; intros; apply Hr].
    apply preserves_bind; [apply preserves_get | intros; apply preserves_subscript].
Qed.

(** C3.  One award of experience levels the character up at most once.
    Below the requirement nothing but the experience changes.  At or
    above it, an award that returns has added exactly one level, reset
    the experience to 0 and read the requirement of the new level from
    the table, however large the award was; and it does return when the
    tables hold the new level.  After an award that returns, experience
    does not exceed the requirement, the table's requirement for the new
    level being not negative. *)
Theorem award_levels_up_at_most_once (c : Character.t) (xp_reward : Z) :
  let run := Character._award_experience xp_reward c in
  let c' := state_of run in
  (Character.experience c + xp_reward < Character.xp_req_to_level c ->
     run = (Ok tt, Character.set_experience (Character.experience c + xp_reward) c))
  /\ (Character.xp_req_to_level c <= Character.experience c + xp_reward ->
      returned run = true ->
        Character.level c' = Character.level c + 1
        /\ Character.experience c' = 0
        /\ Character._REQUIRED_XP_TO_LEVEL c !! (Character.level c + 1)
           = Some (Character.xp_req_to_level c'))
  /\ (Character.xp_req_to_level c <= Character.experience c + xp_reward ->
      forall (stats : gmap string Z) (h m s a req : Z),
        Character._LEVEL_STATS c !! (Character.level c + 1) = Some stats ->
        stats !! Character.KEY_LEVEL_STATS_HEALTH = Some h ->
        stats !! Character.KEY_LEVEL_STATS_MANA = Some m ->
        stats !! Character.KEY_LEVEL_STATS_STRENGTH = Some s ->
        stats !! Character.KEY_LEVEL_STATS_ARMOR = Some a ->
        Character._REQUIRED_XP_TO_LEVEL c !! (Character.level c + 1) = Some req ->
        run = (Ok tt,
               Character.set_xp_req_to_level req
                 (Character.set_experience 0
                    (leveled_up h m s a
                       (Character.set_experience
                          (Character.experience c + xp_reward) c)))))
  /\ (returned run = true ->
      (forall req : Z,
         Character._REQUIRED_XP_TO_LEVEL c !! (Character.level c + 1) = Some req ->
         0 <= req) ->
      Character.experience c' <= Character.xp_req_to_level c').
Proof.
  intros run c'. subst c'. subst run. rewrite _award_experience_unfold.
  set (c1 := Character.set_experience (Character.experience c + xp_reward) c).
  split; [| split; [| split]].
  - intros Hlt. unfold Character.check_if_levelup, bind, get.
    replace (Character.xp_req_to_level c1 <=? Character.experience c1) with false
      by (symmetry; apply Z.leb_gt; exact Hlt).
    reflexivity.
  - intros Hge. generalize (check_if_levelup_outcome c1).
    generalize (Character.check_if_levelup c1). intros out Hout Hret.
    destruct Hout as [Hlt | c' req Hle Hlv Hexp Hreq Htab | e c' Hle];
      cbn in *; [lia | | discriminate].
    repeat split; [exact Hlv | exact Hexp | now rewrite Htab, Hreq].
  - intros Hle stats h m s a req Hstats Hh Hm Hs Ha Hreq.
    unfold Character.check_if_levelup, bind at 1, get at 1.
    replace (Character.xp_req_to_level c1 <=? Character.experience c1) with true
      by (symmetry; apply Z.leb_le; exact Hle).
    unfold bind at 1. unfold bind at 1.
    rewrite (_level_up_returns c1 stats h m s a Hstats Hh Hm Hs Ha).
    unfold modify at 1. unfold bind, Character._lookup_next_xp_level_req, get, subscript.
    cbn. rewrite Hreq. reflexivity.
  - generalize (check_if_levelup_outcome c1).
    generalize (Character.check_if_levelup c1). intros out Hout Hret Hnonneg.
    destruct Hout as [Hlt | c' req Hle Hlv Hexp Hreq Htab | e c' Hle];
      cbn in *; [lia | | discriminate].
    rewrite Hexp, Hreq. exact (Hnonneg _ Htab).
Qed.

(** The hero, at level 1 with a requirement of 400: an award of 100
    changes the experience alone, an award of 5000 adds one level and
    leaves experience 0 under the new requirement of 800. *)
Lemma award_on_hero :
  (Character.experience hero + 100 < Character.xp_req_to_level hero
   /\ Character._award_experience 100 hero
      = (Ok tt, Character.set_experience (Character.experience hero + 100) hero))
  /\ (Character.xp_req_to_level hero <= Character.experience hero + 5000
      /\ returned (Character._award_experience 5000 hero) = true
      /\ Character.level (state_of (Character._award_experience 5000 hero))
         = Character.level hero + 1
      /\ Character.experience (state_of (Character._award_experience 5000 hero)) = 0
      /\ Character.experience (state_of (Character._award_experience 5000 hero))
         <= Character.xp_req_to_level (state_of (Character._award_experience 5000 hero))).
Proof.
  assert (Hbelow : Character.experience hero + 100 < Character.xp_req_to_level hero)
    by (cbn; lia).
  assert (Habove : Character.xp_req_to_level hero <= Character.experience hero + 5000)
    by (cbn; lia).
  assert (Hret : returned (Character._award_experience 5000 hero) = true)
    by (vm_compute; reflexivity).
  assert (Htable : forall req : Z,
            Character._REQUIRED_XP_TO_LEVEL hero !! (Character.level hero + 1) = Some req ->
            0 <= req).
  { intros req Hreq. vm_compute in Hreq. injection Hreq as Hreq. lia. }
  destruct (award_levels_up_at_most_once hero 100) as (Hfew & _).
  destruct (award_levels_up_at_most_once hero 5000) as (_ & Honce & _ & Hrest).
  destruct (Honce Habove Hret) as (Hlevel & Hexp & _).
  split; [split; [exact Hbelow | exact (Hfew Hbelow)] |].
  split; [exact Habove |]. split; [exact Hret |]. split; [exact Hlevel |].
  split; [exact Hexp | exact (Hrest Hret Htable)].
Defined.

(** ** Characters: the reward for a kill *)




(** ** Characters: quests *)

Lemma _award_experience_quest_log (xp_reward : Z) :
  preserves Character.quest_log (Character._award_experience xp_reward).
Proof. apply _award_experience_preserves; reflexivity. Qed.

Lemma _award_experience_inventory (xp_reward : Z) :
  preserves Character.inventory (Character._award_experience xp_reward).
Proof. apply _award_experience_preserves; reflexivity. Qed.

#[export] Hint Resolve _award_experience_quest_log _award_experience_inventory : frame.

Lemma _complete_quest_inventory (quest : Quest.t) :
  preserves Character.inventory (Character._complete_quest quest).
Proof. unfold Character._complete_quest. frame. Qed.

#[export] Hint Resolve _complete_quest_inventory : frame.

Lemma _check_if_quest_completed_inventory (quest : Quest.t) :
  preserves Character.inventory (Character._check_if_quest_completed quest).
Proof. unfold Character._check_if_quest_completed. frame. Qed.

#[export] Hint Resolve _check_if_quest_completed_inventory : frame.

Lemma update_item_quest_inventory (item_quest_id : Z) :
  preserves Character.inventory (Character.update_item_quest item_quest_id).
Proof. unfold Character.update_item_quest. frame. Qed.



(** ** Characters: the inventory *)

(** C10.  When the inventory holds a stack of [n] under the item's name,
    [award_item item k] leaves there the stored item with the count
    [n + n]: neither [k] nor the awarded item is used.  When the name is
    absent, the awarded item is stored with the count [k]. *)
Theorem award_item_doubles_existing_count
    (c : Character.t) (item existing : Item) (n k : Z) :
  let c' := state_of (Character.award_item item k c) in
  (Character.inventory c !! item_name item = Some (Stack existing n) ->
   item_name existing = item_name item ->
   Character.inventory c' !! item_name item = Some (Stack existing (n + n)))
  /\ (Character.inventory c !! item_name item = None ->
      Character.inventory c' !! item_name item = Some (Stack item k)).
Proof.
  intros c'. subst c'. unfold Character.award_item.
  split.
  - intros Hin Hname. unfold bind at 1.
    assert (E : Character.store_item item k c =
                (Ok tt, Character.set_inventory
                          (<[ item_name existing := Stack existing (n + n) ]>
                             (Character.inventory c)) c)).
    { unfold Character.store_item, bind, get. rewrite Hin. reflexivity. }
    rewrite E. rewrite update_item_quest_inventory. cbn.
    rewrite Hname. apply lookup_insert_eq.
  - intros Hout. unfold bind at 1.
    assert (E : Character.store_item item k c =
                (Ok tt, Character.set_inventory
                          (<[ item_name item := Stack item k ]>
                             (Character.inventory c)) c)).
    { unfold Character.store_item, bind, get. rewrite Hout. reflexivity. }
    rewrite E. rewrite update_item_quest_inventory. cbn.
    apply lookup_insert_eq.
Qed.

(** The hero holds 3 Wolf Meat and is awarded 1 more: he holds 6.  He
    holds no Wolf Fang and is awarded 2: he holds 2. *)
Lemma hero_is_awarded_meat_and_fangs :
  (Character.inventory hero_with_meat !! item_name wolf_meat = Some (Stack wolf_meat 3)
   /\ item_name wolf_meat = item_name wolf_meat
   /\ Character.inventory (state_of (Character.award_item wolf_meat 1 hero_with_meat))
      !! item_name wolf_meat = Some (Stack wolf_meat (3 + 3)))
  /\ (Character.inventory hero !! item_name wolf_fang = None
      /\ Character.inventory (state_of (Character.award_item wolf_fang 2 hero))
         !! item_name wolf_fang = Some (Stack wolf_fang 2)).
Proof.
  assert (Hheld : Character.inventory hero_with_meat !! item_name wolf_meat
                  = Some (Stack wolf_meat 3)) by (vm_compute; reflexivity).
  assert (Hnone : Character.inventory hero !! item_name wolf_fang = None)
    by (vm_compute; reflexivity).
  pose proof (award_item_doubles_existing_count hero_with_meat wolf_meat wolf_meat 3 1)
    as Hmeat.
  pose proof (award_item_doubles_existing_count hero wolf_fang wolf_fang 0 2) as Hfang.
  cbv zeta in Hmeat, Hfang.
  destruct Hmeat as (Hdouble & _). destruct Hfang as (_ & Hfresh).
  split; [split; [exact Hheld | split; [reflexivity | exact (Hdouble Hheld eq_refl)]] |].
  split; [exact Hnone | exact (Hfresh Hnone)].
Defined.

(** ** Death, and attacks after it *)






(** ** The loot roll *)








(** The float [0.4] lies above two fifths, and its product with 100 is
    rounded to 40: an entry with drop chance 40 drops on the draw [0.4],
    which the exact product would not allow. *)
Lemma rounding_decides_the_draw_two_fifths :
  let r := (Z.of_N two_fifths_raw # two53)%Q in
  random (tape_of [two_fifths_raw]) = (Ok r, {| tape := tape (tape_of [two_fifths_raw]); pos := 1 |})
  /\ (inject_Z 40 < r * 100)%Q
  /\ (round_to_float (r * 100) == inject_Z 40)%Q
  /\ Qle_bool (round_to_float (r * 100)) (inject_Z 40) = true.
Proof.
  cbv zeta. split; [reflexivity |]. split; [reflexivity |].
  split; [vm_compute; reflexivity | vm_compute; reflexivity].
Qed.




(** ** A monster's loot before its death *)

(** A wolf built by [Monster.__init__] while the gold roll draws 2: it is
    alive and its loot already holds its gold, 4. *)
Lemma new_wolf_loot_is_not_empty :
  exists (m : Monster.t) (g' : Rng),
    Monster.__init__ sample_db 1 "Wolf" 10 10 1 0 1 0 1 "" (constant_rng 2) = (Ok m, g')
    /\ Monster.is_alive m = true
    /\ Monster.loot m !! "gold"%string = Some (LootGold 4)
    /\ Monster.loot m <> ∅.
Proof.
  eexists _, _. split; [reflexivity |]. split; [reflexivity |].
  split; [vm_compute; reflexivity |].
  intros Hempty. apply (f_equal (fun l => l !! "gold"%string)) in Hempty.
  vm_compute in Hempty. discriminate.
Qed.

(** C7, as the code has it.  A newly constructed monster is alive and its loot
    holds exactly one entry, ["gold"], with the gold rolled at
    construction inside the range of the reward table.  Items enter the
    loot only through the loot roll of the death transition: a blow that
    leaves health above 0 leaves the monster alive and its loot as it
    was, and a blow that brings health to 0 or below runs the roll. *)
Theorem new_monster_loot_is_its_gold
    (db : Content) (monster_id : Z) (name : string) (health mana : Q)
    (level min_damage max_damage quest_relation_id loot_table_ID : Z) (gossip : string)
    (g : Rng) (xp lo hi : Z) :
  CREATURE_XP_REWARD_DICTIONARY db !! level = Some xp ->
  CREATURE_GOLD_REWARD_DICTIONARY db !! level = Some (lo, hi) ->
  lo <= hi ->
  exists (m : Monster.t) (g' : Rng),
    Monster.__init__ db monster_id name health mana level min_damage max_damage
      quest_relation_id loot_table_ID gossip g = (Ok m, g')
    /\ Monster.is_alive m = true
    /\ Monster.loot m = {[ "gold"%string := LootGold (Monster._gold_to_give m) ]}
    /\ lo <= Monster._gold_to_give m <= hi
    /\ (forall (damage : Damage) (g2 : Rng),
          (0 < Monster.health m - phys_dmg damage)%Q ->
          Monster.take_attack db damage (m, g2) = (Ok tt, (Monster_hit damage m, g2))
          /\ Monster.is_alive (Monster_hit damage m) = true
          /\ Monster.loot (Monster_hit damage m) = Monster.loot m)
    /\ (forall (damage : Damage) (g2 : Rng),
          (Monster.health m - phys_dmg damage <= 0)%Q ->
          Monster.take_attack db damage (m, g2)
          = Monster.roll_each db (load_loot_table db loot_table_ID)
              (Monster_dead (Monster_hit damage m), g2)).
Proof.
  intros Hxp Hgold Hrange.
  destruct (randint_in_range lo hi g Hrange) as (gold & g' & Eroll & Hin).
  eexists _, g'. split.
  { unfold Monster.__init__, lookup_xp_reward, lookup_gold_reward, subscript,
      Monster._calculate_gold_reward, bind.
    rewrite Hxp, Hgold. cbn [ret fst snd]. rewrite Eroll. reflexivity. }
  cbn [Monster.is_alive Monster.base Monster.loot Monster._gold_to_give
       LivingThing.is_alive LivingThing.__init__ LivingThing._alive].
  split; [reflexivity |]. split; [reflexivity |]. split; [exact Hin |]. split.
  - intros damage g2 Hpos. rewrite Monster_take_attack_unfold.
    destruct (Qle_bool _ 0) eqn:E.
    + apply Qle_bool_iff in E. exfalso. exact (Qlt_not_le _ _ Hpos E).
    + repeat split.
  - intros damage g2 Hle. rewrite Monster_take_attack_unfold.
    apply Qle_bool_iff in Hle. unfold health_minus. cbn in Hle |- *.
    rewrite Hle. reflexivity.
Qed.

(** The wolf of level 1 built from the sample tables. *)
Lemma new_wolf_loot_is_its_gold :
  CREATURE_XP_REWARD_DICTIONARY sample_db !! 1 = Some 50
  /\ CREATURE_GOLD_REWARD_DICTIONARY sample_db !! 1 = Some (2, 5)
  /\ 2 <= 5
  /\ exists (m : Monster.t) (g' : Rng),
       Monster.__init__ sample_db 1 "Wolf" 10 10 1 0 1 0 1 "" (constant_rng 2) = (Ok m, g')
       /\ Monster.is_alive m = true
       /\ Monster.loot m = {[ "gold"%string := LootGold (Monster._gold_to_give m) ]}
       /\ 2 <= Monster._gold_to_give m <= 5.
Proof.
  assert (Hxp : CREATURE_XP_REWARD_DICTIONARY sample_db !! 1 = Some 50)
    by (vm_compute; reflexivity).
  assert (Hgold : CREATURE_GOLD_REWARD_DICTIONARY sample_db !! 1 = Some (2, 5))
    by (vm_compute; reflexivity).
  assert (Hrange : 2 <= 5) by lia.
  destruct (new_monster_loot_is_its_gold sample_db 1 "Wolf" 10 10 1 0 1 0 1 ""
              (constant_rng 2) 50 2 5 Hxp Hgold Hrange)
    as (m & g' & E & Halive & Hloot & Hin & _).
  split; [exact Hxp | split; [exact Hgold | split; [exact Hrange |]]].
  exists m, g'. split; [exact E | split; [exact Halive | split; [exact Hloot | exact Hin]]].
Defined.

(** ** Auto-attack damage *)

(** The scaling by level difference is a product: by 1 + 0.1 * |d| above,
    by 1 - 0.1 * |d| below, by nothing at equal levels. *)
Lemma scale_by_level_factor (level_difference : Z) (damage_to_deal : Q) :
  (0 < level_difference ->
   (scale_by_level level_difference damage_to_deal
    == damage_to_deal * (1 + tenth * inject_Z (Z.abs level_difference)))%Q)
  /\ (level_difference < 0 ->
      (scale_by_level level_difference damage_to_deal
       == damage_to_deal * (1 - tenth * inject_Z (Z.abs level_difference)))%Q)
  /\ (level_difference = 0 -> scale_by_level level_difference damage_to_deal = damage_to_deal).
Proof.
  unfold scale_by_level.
  destruct (level_difference =? 0) eqn:E0;
    [apply Z.eqb_eq in E0 | apply Z.eqb_neq in E0];
    (destruct (level_difference <? 0) eqn:E1;
       [apply Z.ltb_lt in E1 | apply Z.ltb_ge in E1]);
    (split; [| split]); intros; try lia; try reflexivity; ring.
Qed.

Lemma Monster_auto_attack_roll (m : Monster.t) (target_level : Z) (g g' : Rng) (roll : Z) :
  randint (Monster.min_damage m) (Monster.max_damage m + 1) g = (Ok roll, g') ->
  Monster.get_auto_attack_damage m target_level g
  = (Ok {| phys_dmg := scale_by_level (Monster.level m - target_level) (inject_Z roll) |}, g').
Proof. intros E. unfold Monster.get_auto_attack_damage, bind. now rewrite E. Qed.

Lemma Character_auto_attack_roll
    (c : Character.t) (target_level : Z) (g g' : Rng) (roll : Z) :
  randint (py_int (Character.min_damage c)) (py_int (Character.max_damage c) + 1) g
  = (Ok roll, g') ->
  Character.get_auto_attack_damage c target_level g
  = (Ok {| phys_dmg := scale_by_level (Character.level c - target_level) (inject_Z roll) |}, g').
Proof. intros E. unfold Character.get_auto_attack_damage, bind. now rewrite E. Qed.

(** The top of the range [lo .. hi + 1] is drawn on the tape that always
    yields [hi + 1 - lo]. *)
Lemma randint_top (lo hi : Z) :
  lo <= hi ->
  exists g' : Rng,
    randint lo (hi + 1) (constant_rng (Z.to_N (hi + 1 - lo))) = (Ok (hi + 1), g').
Proof.
  intros Hrange. eexists. unfold randint, next_raw, constant_rng. cbn [tape pos].
  destruct (hi + 1 <? lo) eqn:E; [lia |].
  rewrite Z2N.id by lia. rewrite Z.mod_small by lia.
  replace (lo + (hi + 1 - lo)) with (hi + 1) by lia. reflexivity.
Qed.

Lemma scale_by_level_same_level (level : Z) (damage_to_deal : Q) :
  scale_by_level (level - level) damage_to_deal = damage_to_deal.
Proof. rewrite Z.sub_diag. reflexivity. Qed.

(** C1.  [get_auto_attack_damage] scales the drawn integer by
    1 + 0.1 * |levelDiff| above the defender's level, by
    1 - 0.1 * |levelDiff| below it and not at all at equal levels; but the
    integer is drawn by [randint(int(min_damage), int(max_damage) + 1)],
    both ends included, so the draw lies between [int(min_damage)] and
    [int(max_damage) + 1] and reaches the latter: against a defender of
    their own level a monster and a character deal [int(max_damage) + 1],
    above their maximum. *)
Theorem auto_attack_draw_reaches_past_max_damage :
  (forall m : Monster.t,
     Monster.min_damage m <= Monster.max_damage m ->
     (forall (target_level : Z) (g : Rng),
        exists (roll : Z) (g' : Rng),
          Monster.get_auto_attack_damage m target_level g
          = (Ok {| phys_dmg :=
                     scale_by_level (Monster.level m - target_level) (inject_Z roll) |}, g')
          /\ Monster.min_damage m <= roll <= Monster.max_damage m + 1)
     /\ (exists g' : Rng,
           Monster.get_auto_attack_damage m (Monster.level m)
             (constant_rng (Z.to_N (Monster.max_damage m + 1 - Monster.min_damage m)))
           = (Ok {| phys_dmg := inject_Z (Monster.max_damage m + 1) |}, g'))
     /\ (inject_Z (Monster.max_damage m) < inject_Z (Monster.max_damage m + 1))%Q)
  /\ (forall c : Character.t,
        py_int (Character.min_damage c) <= py_int (Character.max_damage c) ->
        (0 <= Character.max_damage c)%Q ->
        (forall (target_level : Z) (g : Rng),
           exists (roll : Z) (g' : Rng),
             Character.get_auto_attack_damage c target_level g
             = (Ok {| phys_dmg :=
                        scale_by_level (Character.level c - target_level) (inject_Z roll) |},
                g')
             /\ py_int (Character.min_damage c) <= roll
                <= py_int (Character.max_damage c) + 1)
        /\ (exists g' : Rng,
              Character.get_auto_attack_damage c (Character.level c)
                (constant_rng (Z.to_N (py_int (Character.max_damage c) + 1
                                       - py_int (Character.min_damage c))))
              = (Ok {| phys_dmg := inject_Z (py_int (Character.max_damage c) + 1) |}, g'))
        /\ (Character.max_damage c < inject_Z (py_int (Character.max_damage c) + 1))%Q)
  /\ (forall (level_difference : Z) (damage_to_deal : Q),
        (0 < level_difference ->
         (scale_by_level level_difference damage_to_deal
          == damage_to_deal * (1 + tenth * inject_Z (Z.abs level_difference)))%Q)
        /\ (level_difference < 0 ->
            (scale_by_level level_difference damage_to_deal
             == damage_to_deal * (1 - tenth * inject_Z (Z.abs level_difference)))%Q)
        /\ (level_difference = 0 ->
            scale_by_level level_difference damage_to_deal = damage_to_deal)).
Proof.
  split; [| split].
  - intros m Hrange. split; [| split].
    + intros target_level g.
      destruct (randint_in_range (Monster.min_damage m) (Monster.max_damage m + 1) g)
        as (roll & g' & E & Hin); [lia |].
      exists roll, g'. split; [now apply Monster_auto_attack_roll | exact Hin].
    + destruct (randint_top _ _ Hrange) as (g' & E). exists g'.
      rewrite (Monster_auto_attack_roll _ _ _ _ _ E).
      now rewrite scale_by_level_same_level.
    + rewrite <- Zlt_Qlt. lia.
  - intros c Hrange Hmax. split; [| split].
    + intros target_level g.
      destruct (randint_in_range (py_int (Character.min_damage c))
                  (py_int (Character.max_damage c) + 1) g)
        as (roll & g' & E & Hin); [lia |].
      exists roll, g'. split; [now apply Character_auto_attack_roll | exact Hin].
    + destruct (randint_top _ _ Hrange) as (g' & E). exists g'.
      rewrite (Character_auto_attack_roll _ _ _ _ _ E).
      now rewrite scale_by_level_same_level.
    + rewrite (py_int_floor _ Hmax). apply Qlt_floor.
  - apply scale_by_level_factor.
Qed.

(** The wolf and the hero, both with damage from 0 to 1, deal 2 to a
    defender of level 1. *)
Lemma wolf_and_hero_deal_two :
  (Monster.min_damage wolf <= Monster.max_damage wolf
   /\ exists g' : Rng,
        Monster.get_auto_attack_damage wolf (Monster.level wolf)
          (constant_rng (Z.to_N (Monster.max_damage wolf + 1 - Monster.min_damage wolf)))
        = (Ok {| phys_dmg := inject_Z (Monster.max_damage wolf + 1) |}, g'))
  /\ (py_int (Character.min_damage hero) <= py_int (Character.max_damage hero)
      /\ (0 <= Character.max_damage hero)%Q
      /\ exists g' : Rng,
           Character.get_auto_attack_damage hero (Character.level hero)
             (constant_rng (Z.to_N (py_int (Character.max_damage hero) + 1
                                    - py_int (Character.min_damage hero))))
           = (Ok {| phys_dmg := inject_Z (py_int (Character.max_damage hero) + 1) |}, g')).
Proof.
  assert (Hwolf : Monster.min_damage wolf <= Monster.max_damage wolf) by (cbn; lia).
  assert (Hhero : py_int (Character.min_damage hero) <= py_int (Character.max_damage hero))
    by (vm_compute; discriminate).
  assert (Hmax : (0 <= Character.max_damage hero)%Q) by (vm_compute; discriminate).
  destruct auto_attack_draw_reaches_past_max_damage as (Hmonster & Hcharacter & _).
  destruct (Hmonster wolf Hwolf) as (_ & Hwolf_top & _).
  destruct (Hcharacter hero Hhero Hmax) as (_ & Hhero_top & _).
  split; [split; [exact Hwolf | exact Hwolf_top] |].
  split; [exact Hhero | split; [exact Hmax | exact Hhero_top]].
Defined.

(** The two draws evaluated: the damage dealt is 2, the maximum 1. *)
Example wolf_and_hero_deal_two_evaluated :
  fst (Monster.get_auto_attack_damage wolf 1 (constant_rng 2)) = Ok {| phys_dmg := 2 |}
  /\ Monster.max_damage wolf = 1
  /\ fst (Character.get_auto_attack_damage hero 1 (constant_rng 2)) = Ok {| phys_dmg := 2 |}
  /\ (Character.max_damage hero == 1)%Q.
Proof. repeat split. Qed.

(** ** Damage over time *)

Lemma Damage_eqb_eq (a b : Damage) :
  Damage_eqb a b = true <-> (phys_dmg a == phys_dmg b)%Q.
Proof. unfold Damage_eqb. apply Qeq_bool_iff. Qed.

(** C9.  Two DoTs are equal iff their names, their damages per tick and
    their durations match; the caster's level takes no part, so
    [update_caster_level] on either side, with any level, leaves equality
    as it was, and changes nothing but the level. *)
Theorem DoT_equality_ignores_caster_level (a b : DoT.t) (new_level : Z) :
  (DoT.eqb a b = true <->
   DoT.name a = DoT.name b
   /\ (phys_dmg (DoT.damage a) == phys_dmg (DoT.damage b))%Q
   /\ DoT.duration a = DoT.duration b)
  /\ DoT.eqb (DoT.update_caster_level a new_level) b = DoT.eqb a b
  /\ DoT.eqb a (DoT.update_caster_level b new_level) = DoT.eqb a b
  /\ DoT.level (DoT.update_caster_level a new_level) = new_level
  /\ DoT.name (DoT.update_caster_level a new_level) = DoT.name a
  /\ DoT.damage (DoT.update_caster_level a new_level) = DoT.damage a
  /\ DoT.duration (DoT.update_caster_level a new_level) = DoT.duration a.
Proof.
  split; [| repeat split].
  unfold DoT.eqb. rewrite !andb_true_iff, bool_decide_eq_true, Damage_eqb_eq, Z.eqb_eq.
  tauto.
Qed.

Example dot_dummy_test_equals :
  DoT.eqb dot_dummy (DoT.update_caster_level dot_dummy 0) = true
  /\ DoT.eqb dot_dummy
       {| DoT.name := "Audi "; DoT.damage := {| phys_dmg := 3 |};
          DoT.duration := 5; DoT.level := 10 |} = false
  /\ DoT.eqb dot_dummy
       {| DoT.name := "Audi"; DoT.damage := {| phys_dmg := 3 |};
          DoT.duration := 6; DoT.level := 10 |} = false
  /\ DoT.eqb dot_dummy
       {| DoT.name := "Audi"; DoT.damage := {| phys_dmg := 150 |};
          DoT.duration := 5; DoT.level := 10 |} = false.
Proof. repeat split. Qed.

(** * Further properties of the entities *)

(** ** Blows, death and coming back *)

(** The armor reduction in closed form, whenever its denominator is not 0. *)
Lemma _apply_armor_reduction_value (c : Character.t) (raw : Damage) (attacker_level : Z) :
  Character.armor c + 400 + 85 * attacker_level <> 0 ->
  Character._apply_armor_reduction raw attacker_level c
  = (Ok {| phys_dmg :=
             (phys_dmg raw - phys_dmg raw *
                (inject_Z (Character.armor c)
                 / inject_Z (Character.armor c + 400 + 85 * attacker_level)))%Q |}, c).
Proof.
  intros Hden. unfold Character._apply_armor_reduction, bind, get.
  destruct (Character.armor c + 400 + 85 * attacker_level =? 0) eqn:E; [lia | reflexivity].
Qed.

Lemma _apply_armor_reduction_zero_division
    (c : Character.t) (raw : Damage) (attacker_level : Z) :
  Character.armor c + 400 + 85 * attacker_level = 0 ->
  Character._apply_armor_reduction raw attacker_level c = (Raise ZeroDivisionError, c).
Proof.
  intros Hden. unfold Character._apply_armor_reduction, bind, get.
  rewrite Hden. reflexivity.
Qed.

(** A blow on a monster always returns; the monster it leaves is the one
    hit, marked dead when out of health, with some loot. *)
Lemma Monster_take_attack_shape (db : Content) (damage : Damage) (m : Monster.t) (g : Rng) :
  exists (l' : gmap string LootEntry) (g' : Rng),
    Monster.take_attack db damage (m, g)
    = (Ok tt,
       (Monster.set_loot l'
          (if Qle_bool (health_minus (Monster.health m) damage) 0
           then Monster_dead (Monster_hit damage m) else Monster_hit damage m), g'))
    /\ dom (Monster.loot m) ⊆ dom l'.
Proof.
  rewrite Monster_take_attack_unfold.
  destruct (Qle_bool (health_minus (Monster.health m) damage) 0).
  - destruct (roll_each_frame db (load_loot_table db (Monster.loot_table_ID m))
                (Monster_dead (Monster_hit damage m)) g) as (l' & g' & E & Hdom).
    exists l', g'. split; [exact E | exact Hdom].
  - exists (Monster.loot m), g. split; [destruct m; reflexivity | reflexivity].
Qed.

(** X1.  After any blow that returns, whoever is out of health is dead, and
    whoever keeps some health is as alive as before.  A blow on a monster
    always returns.  A blow on a character returns unless armor + 400 +
    85 * attacker level is 0; then it raises [ZeroDivisionError] and the
    character is as before. *)
Theorem no_health_means_dead_after_a_blow :
  (forall (db : Content) (damage : Damage) (m : Monster.t) (g : Rng),
     let run := Monster.take_attack db damage (m, g) in
     let m' := fst (state_of run) in
     returned run = true
     /\ ((Monster.health m' <= 0)%Q -> Monster.is_alive m' = false)
     /\ ((0 < Monster.health m')%Q -> Monster.is_alive m' = Monster.is_alive m))
  /\ (forall (c : Character.t) (monster_name : string) (raw : Damage) (attacker_level : Z),
        let run := Character.take_attack monster_name raw attacker_level c in
        let c' := state_of run in
        (Character.armor c + 400 + 85 * attacker_level <> 0 ->
         returned run = true
         /\ ((Character.health c' <= 0)%Q -> Character.is_alive c' = false)
         /\ ((0 < Character.health c')%Q -> Character.is_alive c' = Character.is_alive c))
        /\ (Character.armor c + 400 + 85 * attacker_level = 0 ->
            run = (Raise ZeroDivisionError, c))).
Proof.
  split.
  - intros db damage m g run m'. subst m' run.
    destruct (Monster_take_attack_shape db damage m g) as (l' & g' & E & _).
    rewrite E. cbn [state_of returned fst snd]. split; [reflexivity |].
    destruct (Qle_bool (health_minus (Monster.health m) damage) 0) eqn:Ehp.
    + split; [reflexivity |]. intros Hpos. exfalso.
      apply Qle_bool_iff in Ehp. exact (Qlt_not_le _ _ Hpos Ehp).
    + split; [| reflexivity]. intros Hle. exfalso.
      assert (Htrue : Qle_bool (health_minus (Monster.health m) damage) 0 = true)
        by (apply Qle_bool_iff; exact Hle).
      congruence.
  - intros c monster_name raw attacker_level run c'. subst c' run. split.
    + intros Hden. unfold Character.take_attack.
      rewrite (bind_ok _ _ _ _ _ (_apply_armor_reduction_value c raw attacker_level Hden)).
      unfold bind, modify. rewrite Character_check_if_dead_unfold.
      cbn [state_of returned fst snd]. split; [reflexivity |].
      match goal with |- context [Qle_bool ?h 0] => destruct (Qle_bool h 0) eqn:Ehp end.
      * split; [reflexivity |]. intros Hpos. exfalso.
        apply Qle_bool_iff in Ehp. exact (Qlt_not_le _ _ Hpos Ehp).
      * split; [| reflexivity]. intros Hle. exfalso.
        apply Qle_bool_iff in Hle. cbn in Hle, Ehp. congruence.
    + intros Hden. unfold Character.take_attack.
      exact (bind_raise _ _ _ _ _ (_apply_armor_reduction_zero_division c raw attacker_level Hden)).
Qed.

(** The wolf struck for 12 is out of health and dead; the hero struck for
    10 keeps health and life; the cursed hero's armor raises the division
    by zero. *)
Lemma blows_on_wolf_hero_and_cursed_hero :
  ((Monster.health (fst (state_of (Monster.take_attack sample_db {| phys_dmg := 12 |}
                                     (wolf, constant_rng 0)))) <= 0)%Q
   /\ Monster.is_alive (fst (state_of (Monster.take_attack sample_db {| phys_dmg := 12 |}
                                        (wolf, constant_rng 0)))) = false)
  /\ (Character.armor hero + 400 + 85 * 1 <> 0
      /\ (0 < Character.health (state_of (Character.take_attack "Wolf" {| phys_dmg := 10 |} 1
                                            hero)))%Q
      /\ Character.is_alive (state_of (Character.take_attack "Wolf" {| phys_dmg := 10 |} 1 hero))
         = Character.is_alive hero)
  /\ (Character.armor cursed_hero + 400 + 85 * 1 = 0
      /\ Character.take_attack "Wolf" {| phys_dmg := 10 |} 1 cursed_hero
         = (Raise ZeroDivisionError, cursed_hero)).
Proof.
  destruct no_health_means_dead_after_a_blow as (Hmonster & Hcharacter).
  pose proof (Hmonster sample_db {| phys_dmg := 12 |} wolf (constant_rng 0)) as Hwolf.
  pose proof (Hcharacter hero "Wolf"%string {| phys_dmg := 10 |} 1) as Hhero.
  pose proof (Hcharacter cursed_hero "Wolf"%string {| phys_dmg := 10 |} 1) as Hcursed.
  cbv zeta in Hwolf, Hhero, Hcursed.
  destruct Hwolf as (_ & Hdead & _). destruct Hhero as (Hfine & _).
  destruct Hcursed as (_ & Hzero).
  assert (Hout : (Monster.health (fst (state_of (Monster.take_attack sample_db
                    {| phys_dmg := 12 |} (wolf, constant_rng 0)))) <= 0)%Q)
    by (vm_compute; discriminate).
  assert (Hden : Character.armor hero + 400 + 85 * 1 <> 0) by (cbn; lia).
  assert (Hleft : (0 < Character.health (state_of (Character.take_attack "Wolf"
                     {| phys_dmg := 10 |} 1 hero)))%Q) by (vm_compute; reflexivity).
  assert (Hcurse : Character.armor cursed_hero + 400 + 85 * 1 = 0) by reflexivity.
  destruct (Hfine Hden) as (_ & _ & Halive).
  split; [split; [exact Hout | exact (Hdead Hout)] |].
  split; [split; [exact Hden | split; [exact Hleft | exact (Halive Hleft)]] |].
  split; [exact Hcurse | exact (Hzero Hcurse)].
Defined.

(** X2.  A lethal blow, then [revive] or [leave_combat].  The slain monster is
    dead.  Revived, it is alive at full health and still carries the loot
    rolled at its death.  Leaving combat instead, it regains full health
    as well but stays dead. *)
Theorem coming_back_after_a_lethal_blow
    (db : Content) (damage : Damage) (m : Monster.t) (g : Rng) :
  (Monster.health m - phys_dmg damage <= 0)%Q ->
  let slain := fst (state_of (Monster.take_attack db damage (m, g))) in
  Monster.is_alive slain = false
  /\ (Monster.is_alive (Monster.revive slain) = true
      /\ Monster.health (Monster.revive slain) = LivingThing.max_health (Monster.base m)
      /\ Monster.loot (Monster.revive slain) = Monster.loot slain
      /\ dom (Monster.loot m) ⊆ dom (Monster.loot (Monster.revive slain)))
  /\ (Monster.is_alive (Monster.leave_combat slain) = false
      /\ Monster.health (Monster.leave_combat slain)
         = LivingThing.max_health (Monster.base m)).
Proof.
  intros Hlethal slain. subst slain.
  destruct (Monster_take_attack_shape db damage m g) as (l' & g' & E & Hdom).
  rewrite E. cbn [state_of fst snd].
  assert (Hle : Qle_bool (health_minus (Monster.health m) damage) 0 = true)
    by (apply Qle_bool_iff; exact Hlethal).
  rewrite Hle. repeat split. exact Hdom.
Qed.

(** The wolf, slain by a blow of 12, revived or leaving combat. *)
Lemma slain_wolf_comes_back :
  (Monster.health wolf - phys_dmg {| phys_dmg := 12 |} <= 0)%Q
  /\ Monster.is_alive (Monster.revive (fst slain_wolf)) = true
  /\ Monster.health (Monster.revive (fst slain_wolf)) = LivingThing.max_health (Monster.base wolf)
  /\ Monster.is_alive (Monster.leave_combat (fst slain_wolf)) = false
  /\ Monster.health (Monster.leave_combat (fst slain_wolf))
     = LivingThing.max_health (Monster.base wolf).
Proof.
  assert (Hlethal : (Monster.health wolf - phys_dmg {| phys_dmg := 12 |} <= 0)%Q)
    by (vm_compute; discriminate).
  pose proof (coming_back_after_a_lethal_blow sample_db {| phys_dmg := 12 |} wolf
                (tape_of [nine_tenths_raw]) Hlethal) as Hback.
  cbv zeta in Hback. destruct Hback as (_ & (Halive & Hhealth & _) & (Hdead & Hrested)).
  split; [exact Hlethal |]. split; [exact Halive |]. split; [exact Hhealth |].
  split; [exact Hdead | exact Hrested].
Defined.

(** ** Looting *)

(** X3.  [give_loot] of a name that is not in the loot returns nothing and
    changes nothing.  Of a name that is in the loot it returns the entry
    and removes it, leaving every other entry in place, so that asking
    for the same name again returns nothing. *)
Theorem give_loot_takes_each_entry_once (m : Monster.t) (item_name : string) :
  (Monster.loot m !! item_name = None -> Monster.give_loot item_name m = (Ok None, m))
  /\ (forall entry : LootEntry,
        Monster.loot m !! item_name = Some entry ->
        fst (Monster.give_loot item_name m) = Ok (Some entry)
        /\ Monster.loot (state_of (Monster.give_loot item_name m))
           = delete item_name (Monster.loot m)
        /\ Monster.give_loot item_name (state_of (Monster.give_loot item_name m))
           = (Ok None, state_of (Monster.give_loot item_name m))
        /\ (forall other : string,
              other <> item_name ->
              Monster.loot (state_of (Monster.give_loot item_name m)) !! other
              = Monster.loot m !! other)).
Proof.
  split.
  - intros Hnone. unfold Monster.give_loot, bind, get. rewrite Hnone. reflexivity.
  - intros entry Hsome.
    assert (E : Monster.give_loot item_name m
                = (Ok (Some entry), Monster.set_loot (delete item_name (Monster.loot m)) m)).
    { unfold Monster.give_loot, bind, get. rewrite Hsome. reflexivity. }
    rewrite E. cbn [state_of fst snd Monster.loot Monster.set_loot].
    split; [reflexivity |]. split; [reflexivity |]. split.
    + unfold Monster.give_loot, bind, get. cbn [Monster.loot Monster.set_loot].
      rewrite lookup_delete_eq. reflexivity.
    + intros other Hother. apply lookup_delete_ne. congruence.
Qed.

(** The wolf's gold can be looted once; it holds no meat to loot. *)
Lemma looting_the_wolf :
  (Monster.loot wolf !! "Wolf Meat"%string = None
   /\ Monster.give_loot "Wolf Meat" wolf = (Ok None, wolf))
  /\ (Monster.loot wolf !! "gold"%string = Some (LootGold 3)
      /\ fst (Monster.give_loot "gold" wolf) = Ok (Some (LootGold 3))
      /\ Monster.give_loot "gold" (state_of (Monster.give_loot "gold" wolf))
         = (Ok None, state_of (Monster.give_loot "gold" wolf))).
Proof.
  assert (Hnone : Monster.loot wolf !! "Wolf Meat"%string = None) by (vm_compute; reflexivity).
  assert (Hgold : Monster.loot wolf !! "gold"%string = Some (LootGold 3))
    by (vm_compute; reflexivity).
  destruct (give_loot_takes_each_entry_once wolf "Wolf Meat") as (Habsent & _).
  destruct (give_loot_takes_each_entry_once wolf "gold") as (_ & Hpresent).
  destruct (Hpresent (LootGold 3) Hgold) as (Hgiven & _ & Htwice & _).
  split; [split; [exact Hnone | exact (Habsent Hnone)] |].
  split; [exact Hgold | split; [exact Hgiven | exact Htwice]].
Defined.

(** One turn of the loop of the loot roll. *)
Lemma roll_each_cons (db : Content) (item_ID item_drop_chance : Z) (rest : list (Z * Z))
    (m : Monster.t) (g g' : Rng) (r : Q) :
  random g = (Ok r, g') ->
  Monster.roll_each db ((item_ID, item_drop_chance) :: rest) (m, g)
  = Monster.roll_each db rest
      (if Qle_bool (round_to_float (r * 100)) (inject_Z item_drop_chance) then with_drop db item_ID m else m,
       g').
Proof.
  intros Hr. cbn [Monster.roll_each]. unfold bind at 1. unfold on_snd. cbn [snd fst].
  rewrite Hr. destruct (Qle_bool (round_to_float (r * 100)) (inject_Z item_drop_chance)); reflexivity.
Qed.

Lemma random_advances (g : Rng) :
  exists (r : Q) (g' : Rng),
    random g = (Ok r, g') /\ pos g' = S (pos g) /\ tape g' = tape g.
Proof. unfold random, next_raw. eexists _, _. repeat split. Qed.

(** The loop of the loot roll: it returns, it takes one draw per entry of
    the table, and every entry of the loot afterwards was there before or
    is an item of the table under that item's name. *)
Lemma roll_each_provenance (db : Content) (loot_list : list (Z * Z)) :
  forall (m : Monster.t) (g : Rng),
    returned (Monster.roll_each db loot_list (m, g)) = true
    /\ pos (snd (state_of (Monster.roll_each db loot_list (m, g))))
       = (pos g + length loot_list)%nat
    /\ tape (snd (state_of (Monster.roll_each db loot_list (m, g)))) = tape g
    /\ (forall (k : string) (e : LootEntry),
          Monster.loot (fst (state_of (Monster.roll_each db loot_list (m, g)))) !! k = Some e ->
          Monster.loot m !! k = Some e
          \/ exists item_ID chance : Z,
               In (item_ID, chance) loot_list
               /\ k = item_name (load_item db item_ID)
               /\ e = LootItem (load_item db item_ID)).
Proof.
  induction loot_list as [| [item_ID chance] rest IH]; intros m g.
  - cbn. repeat split; [lia | intros k e H; now left].
  - destruct (random_advances g) as (r & g1 & Hr & Hpos1 & Htape1).
    rewrite (roll_each_cons _ _ _ _ _ _ _ _ Hr).
    set (m1 := if Qle_bool (round_to_float (r * 100)) (inject_Z chance) then with_drop db item_ID m else m).
    destruct (IH m1 g1) as (Hret & Hpos & Htape & Hkeys).
    split; [exact Hret |]. split; [rewrite Hpos, Hpos1; cbn; lia |].
    split; [rewrite Htape; exact Htape1 |].
    intros k e Hk. destruct (Hkeys k e Hk) as [Hold | (i & ch & Hin & -> & ->)].
    + subst m1. destruct (Qle_bool (round_to_float (r * 100)) (inject_Z chance)); [| now left].
      unfold with_drop in Hold. cbn [Monster.loot Monster.set_loot] in Hold.
      destruct (decide (item_name (load_item db item_ID) = k)) as [<- | Hne].
      * rewrite lookup_insert_eq in Hold. injection Hold as <-.
        right. exists item_ID, chance. split; [now left | split; reflexivity].
      * rewrite lookup_insert_ne in Hold by exact Hne. now left.
    + right. exists i, ch. split; [now right | split; reflexivity].
Qed.

(** X4.  [_drop_loot] never fails and takes exactly one random draw per entry
    of the monster's loot table.  Whatever is in the loot afterwards was
    there before the roll or is an item of the table, stored under that
    item's name. *)
Theorem drop_loot_draws_once_per_entry (db : Content) (m : Monster.t) (g : Rng) :
  let loot_list := load_loot_table db (Monster.loot_table_ID m) in
  let run := Monster._drop_loot db (m, g) in
  returned run = true
  /\ pos (snd (state_of run)) = (pos g + length loot_list)%nat
  /\ tape (snd (state_of run)) = tape g
  /\ (forall (k : string) (e : LootEntry),
        Monster.loot (fst (state_of run)) !! k = Some e ->
        Monster.loot m !! k = Some e
        \/ exists item_ID chance : Z,
             In (item_ID, chance) loot_list
             /\ k = item_name (load_item db item_ID)
             /\ e = LootItem (load_item db item_ID)).
Proof.
  intros loot_list run. subst run loot_list.
  unfold Monster._drop_loot, bind at 1, get at 1. cbn [fst].
  apply roll_each_provenance.
Qed.

(** The wolf's table has one entry: one draw is taken, and the meat found
    in the loot after a roll on the draw 0 is the item of the table. *)
Lemma wolf_loot_roll_draws_once :
  pos (snd (state_of (Monster._drop_loot sample_db (wolf, constant_rng 0)))) = 1%nat
  /\ Monster.loot (fst (state_of (Monster._drop_loot sample_db (wolf, constant_rng 0))))
     !! "Wolf Meat"%string = Some (LootItem wolf_meat)
  /\ (Monster.loot wolf !! "Wolf Meat"%string = Some (LootItem wolf_meat)
      \/ exists item_ID chance : Z,
           In (item_ID, chance) (load_loot_table sample_db (Monster.loot_table_ID wolf))
           /\ "Wolf Meat"%string = item_name (load_item sample_db item_ID)
           /\ LootItem wolf_meat = LootItem (load_item sample_db item_ID)).
Proof.
  pose proof (drop_loot_draws_once_per_entry sample_db wolf (constant_rng 0)) as Hroll.
  cbv zeta in Hroll. destruct Hroll as (_ & Hpos & _ & Hfrom).
  assert (Hmeat : Monster.loot (fst (state_of (Monster._drop_loot sample_db
                                                 (wolf, constant_rng 0))))
                  !! "Wolf Meat"%string = Some (LootItem wolf_meat))
    by (vm_compute; reflexivity).
  split; [exact Hpos | split; [exact Hmeat | exact (Hfrom _ _ Hmeat)]].
Defined.

(** ** Building a monster *)

(** X5.  [Monster.__init__] fails with a [KeyError] when a reward table has no
    entry for the level and with a [ValueError] when the gold range is
    empty, in each case before any random draw.  Otherwise it takes a
    single draw, for the gold, and the monster starts at full health and
    mana with the XP reward of its level. *)
Theorem monster_construction_needs_its_tables
    (db : Content) (monster_id : Z) (name : string) (health mana : Q)
    (level min_damage max_damage quest_relation_id loot_table_ID : Z) (gossip : string)
    (g : Rng) :
  let run := Monster.__init__ db monster_id name health mana level min_damage max_damage
               quest_relation_id loot_table_ID gossip g in
  (CREATURE_XP_REWARD_DICTIONARY db !! level = None -> run = (Raise KeyError, g))
  /\ (CREATURE_GOLD_REWARD_DICTIONARY db !! level = None -> run = (Raise KeyError, g))
  /\ (forall xp lo hi : Z,
        CREATURE_XP_REWARD_DICTIONARY db !! level = Some xp ->
        CREATURE_GOLD_REWARD_DICTIONARY db !! level = Some (lo, hi) ->
        hi < lo -> run = (Raise ValueError, g))
  /\ (forall xp lo hi : Z,
        CREATURE_XP_REWARD_DICTIONARY db !! level = Some xp ->
        CREATURE_GOLD_REWARD_DICTIONARY db !! level = Some (lo, hi) ->
        lo <= hi ->
        exists m : Monster.t,
          run = (Ok m, snd (next_raw g))
          /\ Monster.xp_to_give m = xp
          /\ Monster.level m = level
          /\ Monster.health m = health
          /\ LivingThing.max_health (Monster.base m) = health
          /\ LivingThing.mana (Monster.base m) = mana
          /\ LivingThing.max_mana (Monster.base m) = mana
          /\ LivingThing.is_in_combat (Monster.base m) = false).
Proof.
  intros run. subst run.
  unfold Monster.__init__, lookup_xp_reward, lookup_gold_reward, subscript,
    Monster._calculate_gold_reward, bind.
  split; [| split; [| split]].
  - intros ->. reflexivity.
  - intros ->. destruct (CREATURE_XP_REWARD_DICTIONARY db !! level); reflexivity.
  - intros xp lo hi -> -> Hempty. cbn [ret fst snd]. unfold randint.
    destruct (hi <? lo) eqn:E; [reflexivity | lia].
  - intros xp lo hi -> -> Hrange. cbn [ret fst snd]. unfold randint.
    destruct (hi <? lo) eqn:E; [lia |]. cbn.
    eexists. split; [reflexivity |]. repeat split.
Qed.

(** The sample tables hold level 1 and not level 9. *)
Lemma building_wolves_of_level_9_and_1 :
  (CREATURE_XP_REWARD_DICTIONARY sample_db !! 9 = None
   /\ Monster.__init__ sample_db 1 "Wolf" 10 10 9 0 1 0 1 "" (constant_rng 2)
      = (Raise KeyError, constant_rng 2))
  /\ (CREATURE_XP_REWARD_DICTIONARY sample_db !! 1 = Some 50
      /\ CREATURE_GOLD_REWARD_DICTIONARY sample_db !! 1 = Some (2, 5)
      /\ 2 <= 5
      /\ exists m : Monster.t,
           Monster.__init__ sample_db 1 "Wolf" 10 10 1 0 1 0 1 "" (constant_rng 2)
           = (Ok m, snd (next_raw (constant_rng 2)))
           /\ Monster.xp_to_give m = 50).
Proof.
  assert (Hnine : CREATURE_XP_REWARD_DICTIONARY sample_db !! 9 = None)
    by (vm_compute; reflexivity).
  assert (Hxp : CREATURE_XP_REWARD_DICTIONARY sample_db !! 1 = Some 50)
    by (vm_compute; reflexivity).
  assert (Hgold : CREATURE_GOLD_REWARD_DICTIONARY sample_db !! 1 = Some (2, 5))
    by (vm_compute; reflexivity).
  assert (Hrange : 2 <= 5) by lia.
  pose proof (monster_construction_needs_its_tables sample_db 1 "Wolf" 10 10 9 0 1 0 1 ""
                (constant_rng 2)) as Hfail.
  pose proof (monster_construction_needs_its_tables sample_db 1 "Wolf" 10 10 1 0 1 0 1 ""
                (constant_rng 2)) as Hbuilt.
  cbv zeta in Hfail, Hbuilt.
  destruct Hfail as (Hkey & _). destruct Hbuilt as (_ & _ & _ & Hok).
  destruct (Hok 50 2 5 Hxp Hgold Hrange) as (m & E & Hgives & _).
  split; [split; [exact Hnine | exact (Hkey Hnine)] |].
  split; [exact Hxp | split; [exact Hgold | split; [exact Hrange |]]].
  exists m. split; [exact E | exact Hgives].
Defined.

(** ** Armor *)

(** The share of a blow that gets through the armor, as one fraction. *)
Lemma armor_reduction_as_fraction (raw : Q) (armor attacker_level : Z) :
  0 < armor + 400 + 85 * attacker_level ->
  (raw - raw * (inject_Z armor / inject_Z (armor + 400 + 85 * attacker_level))
   == raw * ((400 + 85 * attacker_level) # Z.to_pos (armor + 400 + 85 * attacker_level)))%Q.
Proof.
  intros Hden.
  destruct (armor + 400 + 85 * attacker_level) as [| p | p] eqn:E; try lia.
  rewrite Qmake_Qdiv. cbn [Z.to_pos].
  replace (400 + 85 * attacker_level) with (Z.pos p - armor) by lia.
  unfold Zminus. rewrite inject_Z_plus, inject_Z_opp. field.
  discriminate.
Qed.

Lemma to_pos_denominator (armor attacker_level : Z) :
  0 <= armor -> 0 <= attacker_level ->
  Z.pos (Z.to_pos (armor + 400 + 85 * attacker_level)) = armor + 400 + 85 * attacker_level.
Proof. intros Ha Hl. apply Z2Pos.id. lia. Qed.

(** What gets through the armor of a character, for armor and attacker
    level that are not negative. *)
Lemma _apply_armor_reduction_fraction (c : Character.t) (raw : Damage) (attacker_level : Z) :
  0 <= Character.armor c -> 0 <= attacker_level ->
  exists reduced : Damage,
    Character._apply_armor_reduction raw attacker_level c = (Ok reduced, c)
    /\ (phys_dmg reduced
        == phys_dmg raw
           * ((400 + 85 * attacker_level)
              # Z.to_pos (Character.armor c + 400 + 85 * attacker_level)))%Q.
Proof.
  intros Ha Hl. eexists. split.
  - apply _apply_armor_reduction_value. lia.
  - cbn [phys_dmg]. apply armor_reduction_as_fraction. lia.
Qed.

(** X6.  Armor never turns a blow around and never absorbs it whole: for a
    blow that is not negative, against armor and an attacker level that
    are not negative, the reduced damage lies between 0 and the raw
    damage; it is above 0 when the raw damage is, and below the raw
    damage when there is some armor. *)
Theorem armor_lets_part_of_every_blow_through
    (c : Character.t) (raw : Damage) (attacker_level : Z) :
  0 <= Character.armor c -> 0 <= attacker_level -> (0 <= phys_dmg raw)%Q ->
  exists reduced : Damage,
    Character._apply_armor_reduction raw attacker_level c = (Ok reduced, c)
    /\ (0 <= phys_dmg reduced)%Q
    /\ (phys_dmg reduced <= phys_dmg raw)%Q
    /\ ((0 < phys_dmg raw)%Q -> (0 < phys_dmg reduced)%Q)
    /\ ((0 < phys_dmg raw)%Q -> 0 < Character.armor c ->
        (phys_dmg reduced < phys_dmg raw)%Q).
Proof.
  intros Ha Hl Hraw.
  destruct (_apply_armor_reduction_fraction c raw attacker_level Ha Hl)
    as (reduced & E & Hfraction).
  exists reduced. split; [exact E |].
  pose proof (to_pos_denominator _ _ Ha Hl) as Hp.
  revert Hp Hfraction. generalize (Z.to_pos (Character.armor c + 400 + 85 * attacker_level)).
  intros p Hp Hfraction.
  assert (Hf0 : (0 < (400 + 85 * attacker_level) # p)%Q) by (unfold Qlt; cbn; lia).
  assert (Hf1 : ((400 + 85 * attacker_level) # p <= 1)%Q) by (unfold Qle; cbn; lia).
  split; [| split; [| split]].
  - rewrite Hfraction. apply Qmult_le_0_compat; [exact Hraw | apply Qlt_le_weak; exact Hf0].
  - rewrite Hfraction. rewrite <- (Qmult_1_r (phys_dmg raw)) at 2.
    rewrite !(Qmult_comm (phys_dmg raw)).
    apply Qmult_le_compat_r; [exact Hf1 | exact Hraw].
  - intros Hpos. rewrite Hfraction.
    rewrite <- (Qmult_0_l ((400 + 85 * attacker_level) # p)).
    apply Qmult_lt_compat_r; [exact Hf0 | exact Hpos].
  - intros Hpos Harmor. rewrite Hfraction. rewrite <- (Qmult_1_r (phys_dmg raw)) at 2.
    apply Qmult_lt_l; [exact Hpos |]. unfold Qlt. cbn. lia.
Qed.

(** A blow of 10 on the hero, by an attacker of level 1. *)
Lemma part_of_a_blow_gets_through_to_hero :
  0 <= Character.armor hero /\ 0 <= 1 /\ (0 <= phys_dmg {| phys_dmg := 10 |})%Q
  /\ (0 < phys_dmg {| phys_dmg := 10 |})%Q /\ 0 < Character.armor hero
  /\ exists reduced : Damage,
       Character._apply_armor_reduction {| phys_dmg := 10 |} 1 hero = (Ok reduced, hero)
       /\ (0 < phys_dmg reduced)%Q
       /\ (phys_dmg reduced < phys_dmg {| phys_dmg := 10 |})%Q.
Proof.
  assert (Harmor : 0 <= Character.armor hero) by (cbn; lia).
  assert (Hlevel : 0 <= 1) by lia.
  assert (Hraw : (0 <= phys_dmg {| phys_dmg := 10 |})%Q) by (vm_compute; discriminate).
  assert (Hpos : (0 < phys_dmg {| phys_dmg := 10 |})%Q) by reflexivity.
  assert (Hsome : 0 < Character.armor hero) by (cbn; lia).
  destruct (armor_lets_part_of_every_blow_through hero {| phys_dmg := 10 |} 1
              Harmor Hlevel Hraw) as (reduced & E & _ & _ & Habove & Hbelow).
  split; [exact Harmor | split; [exact Hlevel | split; [exact Hraw |]]].
  split; [exact Hpos | split; [exact Hsome |]].
  exists reduced. split; [exact E | split; [exact (Habove Hpos) | exact (Hbelow Hpos Hsome)]].
Defined.

(** X7.  More armor lets less of the same blow through, and a higher attacker
    level lets more of it through the same armor. *)
Theorem armor_reduction_is_monotone (raw : Damage) :
  (0 < phys_dmg raw)%Q ->
  (forall (c1 c2 : Character.t) (attacker_level : Z),
     0 <= Character.armor c1 -> Character.armor c1 < Character.armor c2 ->
     0 <= attacker_level ->
     exists r1 r2 : Damage,
       Character._apply_armor_reduction raw attacker_level c1 = (Ok r1, c1)
       /\ Character._apply_armor_reduction raw attacker_level c2 = (Ok r2, c2)
       /\ (phys_dmg r2 < phys_dmg r1)%Q)
  /\ (forall (c : Character.t) (level1 level2 : Z),
        0 < Character.armor c -> 0 <= level1 -> level1 < level2 ->
        exists r1 r2 : Damage,
          Character._apply_armor_reduction raw level1 c = (Ok r1, c)
          /\ Character._apply_armor_reduction raw level2 c = (Ok r2, c)
          /\ (phys_dmg r1 < phys_dmg r2)%Q).
Proof.
  intros Hraw. split.
  - intros c1 c2 attacker_level Ha1 Ha12 Hl.
    destruct (_apply_armor_reduction_fraction c1 raw attacker_level Ha1 Hl)
      as (r1 & E1 & H1).
    destruct (_apply_armor_reduction_fraction c2 raw attacker_level ltac:(lia) Hl)
      as (r2 & E2 & H2).
    exists r1, r2. split; [exact E1 | split; [exact E2 |]].
    pose proof (to_pos_denominator (Character.armor c1) attacker_level Ha1 Hl) as Hp1.
    pose proof (to_pos_denominator (Character.armor c2) attacker_level ltac:(lia) Hl) as Hp2.
    rewrite H1, H2. apply Qmult_lt_l; [exact Hraw |].
    unfold Qlt. cbn [Qnum Qden]. rewrite Hp1, Hp2. nia.
  - intros c level1 level2 Ha Hl1 Hl12.
    destruct (_apply_armor_reduction_fraction c raw level1 ltac:(lia) Hl1)
      as (r1 & E1 & H1).
    destruct (_apply_armor_reduction_fraction c raw level2 ltac:(lia) ltac:(lia))
      as (r2 & E2 & H2).
    exists r1, r2. split; [exact E1 | split; [exact E2 |]].
    pose proof (to_pos_denominator (Character.armor c) level1 ltac:(lia) Hl1) as Hp1.
    pose proof (to_pos_denominator (Character.armor c) level2 ltac:(lia) ltac:(lia)) as Hp2.
    rewrite H1, H2. apply Qmult_lt_l; [exact Hraw |].
    unfold Qlt. cbn [Qnum Qden]. rewrite Hp1, Hp2. nia.
Qed.

(** A blow of 10: the hero with 100 armor takes less than with 75, and the
    hero takes more from an attacker of level 2 than of level 1. *)
Lemma armor_and_level_on_a_blow_of_ten :
  (0 < phys_dmg {| phys_dmg := 10 |})%Q
  /\ (0 <= Character.armor hero /\ Character.armor hero < Character.armor armored_hero
      /\ 0 <= 1
      /\ exists r1 r2 : Damage,
           Character._apply_armor_reduction {| phys_dmg := 10 |} 1 hero = (Ok r1, hero)
           /\ Character._apply_armor_reduction {| phys_dmg := 10 |} 1 armored_hero
              = (Ok r2, armored_hero)
           /\ (phys_dmg r2 < phys_dmg r1)%Q)
  /\ (0 < Character.armor hero /\ 0 <= 1 /\ 1 < 2
      /\ exists r1 r2 : Damage,
           Character._apply_armor_reduction {| phys_dmg := 10 |} 1 hero = (Ok r1, hero)
           /\ Character._apply_armor_reduction {| phys_dmg := 10 |} 2 hero = (Ok r2, hero)
           /\ (phys_dmg r1 < phys_dmg r2)%Q).
Proof.
  assert (Hraw : (0 < phys_dmg {| phys_dmg := 10 |})%Q) by reflexivity.
  assert (Ha0 : 0 <= Character.armor hero) by (cbn; lia).
  assert (Ha1 : Character.armor hero < Character.armor armored_hero) by (cbn; lia).
  assert (Ha2 : 0 < Character.armor hero) by (cbn; lia).
  assert (Hl0 : 0 <= 1) by lia.
  assert (Hl1 : 1 < 2) by lia.
  destruct (armor_reduction_is_monotone {| phys_dmg := 10 |} Hraw) as (Harmor & Hlevel).
  split; [exact Hraw |]. split.
  - split; [exact Ha0 | split; [exact Ha1 | split; [exact Hl0 |]]].
    exact (Harmor hero armored_hero 1 Ha0 Ha1 Hl0).
  - split; [exact Ha2 | split; [exact Hl0 | split; [exact Hl1 |]]].
    exact (Hlevel hero 1 2 Ha2 Hl0 Hl1).
Defined.

(** ** A monster's swing at a character *)

Lemma level_factor_below (gap : Z) :
  (10 <= gap -> (1 - tenth * inject_Z gap <= 0)%Q)
  /\ (0 <= gap <= 10 -> (0 <= 1 - tenth * inject_Z gap)%Q).
Proof.
  unfold tenth, Qle, Qminus, Qplus, Qmult, Qopp, inject_Z. cbn. split; intros; lia.
Qed.

(** The sign of a scaled draw that is not negative: an attacker 10 levels
    or more below its target deals nothing or less than nothing, any
    other attacker deals nothing or more. *)
Lemma scale_by_level_sign (level_difference : Z) (damage_to_deal : Q) :
  (0 <= damage_to_deal)%Q ->
  (level_difference <= -10 -> (scale_by_level level_difference damage_to_deal <= 0)%Q)
  /\ (-10 <= level_difference -> (0 <= scale_by_level level_difference damage_to_deal)%Q).
Proof.
  intros Hx.
  destruct (scale_by_level_factor level_difference damage_to_deal) as (Habove & Hbelow & Hsame).
  split.
  - intros Hfar. rewrite Hbelow by lia.
    rewrite <- (Qmult_0_r damage_to_deal).
    rewrite !(Qmult_comm damage_to_deal).
    apply Qmult_le_compat_r; [| exact Hx].
    apply (proj1 (level_factor_below (Z.abs level_difference))). lia.
  - intros Hnear.
    destruct (Z.lt_trichotomy level_difference 0) as [Hneg | [Hzero | Hpos]].
    + rewrite Hbelow by lia. apply Qmult_le_0_compat; [exact Hx |].
      apply (proj2 (level_factor_below (Z.abs level_difference))). lia.
    + rewrite Hsame by exact Hzero. exact Hx.
    + rewrite Habove by lia. apply Qmult_le_0_compat; [exact Hx |].
      unfold tenth, Qle, Qplus, Qmult, inject_Z. cbn. lia.
Qed.

(** [Monster.attack] is the monster's draw handed to the victim's
    [take_attack]. *)
Lemma Monster_attack_unfold
    (self : Monster.t) (victim : Character.t) (g g' : Rng) (swing : Damage) :
  Monster.get_auto_attack_damage self (Character.level victim) g = (Ok swing, g') ->
  Monster_attack self (victim, g)
  = (fst (Character.take_attack (LivingThing.name (Monster.base self)) swing
            (Monster.level self) victim),
     (state_of (Character.take_attack (LivingThing.name (Monster.base self)) swing
                  (Monster.level self) victim), g')).
Proof.
  intros E. unfold Monster_attack, bind at 1, get at 1. cbn [fst snd].
  unfold bind at 1. unfold on_snd at 1. cbn [fst snd]. rewrite E.
  unfold on_fst. cbn [fst snd].
  destruct (Character.take_attack _ swing (Monster.level self) victim). reflexivity.
Qed.

(** X8.  A monster's attack on a character with armor that is not negative,
    by a monster of a level that is not negative and with damage bounds
    0 <= min <= max: the attack returns and takes one random draw.  When
    the monster is less than 10 levels below the character, the
    character's health does not rise, and at equal levels it falls by
    at most [max_damage + 1].  When the monster is 10 levels or more
    below, the scaling turns the blow around: the character's health does
    not fall. *)
Theorem monster_attack_changes_health_within_bounds
    (self : Monster.t) (victim : Character.t) (g : Rng) :
  0 <= Monster.min_damage self <= Monster.max_damage self ->
  0 <= Monster.level self -> 0 <= Character.armor victim ->
  let run := Monster_attack self (victim, g) in
  let victim' := fst (state_of run) in
  returned run = true
  /\ snd (state_of run) = snd (next_raw g)
  /\ (Character.level victim - 10 < Monster.level self ->
      (Character.health victim' <= Character.health victim)%Q)
  /\ (Monster.level self = Character.level victim ->
      (Character.health victim - inject_Z (Monster.max_damage self + 1)
       <= Character.health victim')%Q)
  /\ (Monster.level self <= Character.level victim - 10 ->
      (Character.health victim <= Character.health victim')%Q).
Proof.
  intros Hbounds Hlevel Harmor run victim'. subst victim' run.
  destruct (randint_in_range (Monster.min_damage self) (Monster.max_damage self + 1) g)
    as (roll & g' & Eroll & Hroll); [lia |].
  assert (Eg : g' = snd (next_raw g)).
  { unfold randint in Eroll. destruct (_ <? _); [discriminate |].
    destruct (next_raw g) as [n g1]. injection Eroll as _ <-. reflexivity. }
  pose proof (Monster_auto_attack_roll self (Character.level victim) g g' roll Eroll) as Eswing.
  rewrite (Monster_attack_unfold _ _ _ _ _ Eswing).
  set (swing := {| phys_dmg := scale_by_level _ _ |}) in *.
  destruct (_apply_armor_reduction_fraction victim swing (Monster.level self) Harmor Hlevel)
    as (reduced & Ered & Hfraction).
  pose proof (to_pos_denominator _ _ Harmor Hlevel) as Hp.
  revert Hp Hfraction.
  generalize (Z.to_pos (Character.armor victim + 400 + 85 * Monster.level self)).
  intros p Hp Hfraction.
  assert (Hf0 : (0 <= (400 + 85 * Monster.level self) # p)%Q) by (unfold Qle; cbn; lia).
  assert (Hf1 : ((400 + 85 * Monster.level self) # p <= 1)%Q) by (unfold Qle; cbn; lia).
  assert (Etake : Character.take_attack (LivingThing.name (Monster.base self)) swing
                    (Monster.level self) victim
                  = (Ok tt,
                     (if Qle_bool (Character.health victim - phys_dmg reduced) 0
                      then Character.set_base (LivingThing._die (Character.base
                             (Character.set_base
                                (LivingThing.set_health
                                   (Character.health victim - phys_dmg reduced)%Q
                                   (Character.base victim)) victim)))
                             (Character.set_base
                                (LivingThing.set_health
                                   (Character.health victim - phys_dmg reduced)%Q
                                   (Character.base victim)) victim)
                      else Character.set_base
                             (LivingThing.set_health
                                (Character.health victim - phys_dmg reduced)%Q
                                (Character.base victim)) victim))).
  { unfold Character.take_attack. rewrite (bind_ok _ _ _ _ _ Ered).
    unfold bind, modify. rewrite Character_check_if_dead_unfold. reflexivity. }
  rewrite Etake. cbn [state_of returned fst snd].
  assert (Ehealth : Character.health
                      (if Qle_bool (Character.health victim - phys_dmg reduced) 0
                       then Character.set_base (LivingThing._die (Character.base
                              (Character.set_base
                                 (LivingThing.set_health
                                    (Character.health victim - phys_dmg reduced)%Q
                                    (Character.base victim)) victim)))
                              (Character.set_base
                                 (LivingThing.set_health
                                    (Character.health victim - phys_dmg reduced)%Q
                                    (Character.base victim)) victim)
                       else Character.set_base
                              (LivingThing.set_health
                                 (Character.health victim - phys_dmg reduced)%Q
                                 (Character.base victim)) victim)
                    = (Character.health victim - phys_dmg reduced)%Q)
    by (destruct (Qle_bool _ 0); reflexivity).
  rewrite Ehealth. clear Ehealth Etake.
  assert (Hroll0 : (0 <= inject_Z roll)%Q).
  { change (inject_Z 0 <= inject_Z roll)%Q. rewrite <- Zle_Qle. lia. }
  destruct (scale_by_level_sign (Monster.level self - Character.level victim)
              (inject_Z roll) Hroll0) as (Hfar & Hnear).
  split; [reflexivity |]. split; [exact Eg |].
  split; [| split].
  - intros Hgap.
    assert (H0 : (0 <= phys_dmg reduced)%Q).
    { rewrite Hfraction. apply Qmult_le_0_compat; [| exact Hf0].
      subst swing. cbn [phys_dmg]. apply Hnear. lia. }
    rewrite <- (Qplus_0_r (Character.health victim)) at 2.
    unfold Qminus. apply Qplus_le_r.
    change 0%Q with (- 0)%Q. apply Qopp_le_compat. exact H0.
  - intros Hsame.
    assert (H1 : (phys_dmg reduced <= inject_Z (Monster.max_damage self + 1))%Q).
    { rewrite Hfraction. subst swing. cbn [phys_dmg].
      replace (scale_by_level (Monster.level self - Character.level victim) (inject_Z roll))
        with (inject_Z roll)
        by (rewrite Hsame; symmetry; apply scale_by_level_same_level).
      apply Qle_trans with (inject_Z roll * 1)%Q.
      - rewrite !(Qmult_comm (inject_Z roll)).
        apply Qmult_le_compat_r; [exact Hf1 | exact Hroll0].
      - rewrite Qmult_1_r. rewrite <- Zle_Qle. lia. }
    unfold Qminus. apply Qplus_le_r. apply Qopp_le_compat. exact H1.
  - intros Hgap.
    assert (H0 : (phys_dmg reduced <= 0)%Q).
    { rewrite Hfraction.
      rewrite <- (Qmult_0_l ((400 + 85 * Monster.level self) # p)).
      apply Qmult_le_compat_r; [| exact Hf0].
      subst swing. cbn [phys_dmg]. apply Hfar. lia. }
    rewrite <- (Qplus_0_r (Character.health victim)) at 1.
    unfold Qminus. apply Qplus_le_r.
    change 0%Q with (- 0)%Q. apply Qopp_le_compat. exact H0.
Qed.

(** The wolf attacks the hero of its own level, and the champion ten
    levels above it. *)
Lemma wolf_attacks_hero_and_champion :
  0 <= Monster.min_damage wolf <= Monster.max_damage wolf
  /\ 0 <= Monster.level wolf
  /\ 0 <= Character.armor hero
  /\ (Monster.level wolf = Character.level hero
      /\ (Character.health hero - inject_Z (Monster.max_damage wolf + 1)
          <= Character.health (fst (state_of (Monster_attack wolf (hero, constant_rng 2)))))%Q
      /\ (Character.health (fst (state_of (Monster_attack wolf (hero, constant_rng 2))))
          <= Character.health hero)%Q)
  /\ (Monster.level wolf <= Character.level champion - 10
      /\ (Character.health champion
          <= Character.health (fst (state_of (Monster_attack wolf (champion, constant_rng 2)))))%Q).
Proof.
  assert (Hbounds : 0 <= Monster.min_damage wolf <= Monster.max_damage wolf) by (cbn; lia).
  assert (Hlevel : 0 <= Monster.level wolf) by (cbn; lia).
  assert (Harmor : 0 <= Character.armor hero) by (cbn; lia).
  assert (Harmor' : 0 <= Character.armor champion) by (cbn; lia).
  assert (Hsame : Monster.level wolf = Character.level hero) by reflexivity.
  assert (Hnear : Character.level hero - 10 < Monster.level wolf) by (cbn; lia).
  assert (Hfar : Monster.level wolf <= Character.level champion - 10) by (cbn; lia).
  pose proof (monster_attack_changes_health_within_bounds wolf hero (constant_rng 2)
                Hbounds Hlevel Harmor) as Hhero.
  pose proof (monster_attack_changes_health_within_bounds wolf champion (constant_rng 2)
                Hbounds Hlevel Harmor') as Hchampion.
  cbv zeta in Hhero, Hchampion.
  destruct Hhero as (_ & _ & Hdown & Hlow & _).
  destruct Hchampion as (_ & _ & _ & _ & Hup).
  split; [exact Hbounds | split; [exact Hlevel | split; [exact Harmor |]]].
  split; [split; [exact Hsame | split; [exact (Hlow Hsame) | exact (Hdown Hnear)]] |].
  split; [exact Hfar | exact (Hup Hfar)].
Defined.

(** ** Level-ups: what they change and how they fail *)

(** An award that reaches the requirement, with the tables holding the
    new level. *)
Lemma _award_experience_levels_up
    (c : Character.t) (xp_reward : Z) (stats : gmap string Z) (h m s a req : Z) :
  Character.xp_req_to_level c <= Character.experience c + xp_reward ->
  Character._LEVEL_STATS c !! (Character.level c + 1) = Some stats ->
  stats !! Character.KEY_LEVEL_STATS_HEALTH = Some h ->
  stats !! Character.KEY_LEVEL_STATS_MANA = Some m ->
  stats !! Character.KEY_LEVEL_STATS_STRENGTH = Some s ->
  stats !! Character.KEY_LEVEL_STATS_ARMOR = Some a ->
  Character._REQUIRED_XP_TO_LEVEL c !! (Character.level c + 1) = Some req ->
  Character._award_experience xp_reward c
  = (Ok tt,
     Character.set_xp_req_to_level req
       (Character.set_experience 0
          (leveled_up h m s a
             (Character.set_experience (Character.experience c + xp_reward) c)))).
Proof.
  intros Hle Hstats Hh Hm Hs Ha Hreq. rewrite _award_experience_unfold.
  set (c1 := Character.set_experience (Character.experience c + xp_reward) c).
  unfold Character.check_if_levelup, bind at 1, get at 1.
  replace (Character.xp_req_to_level c1 <=? Character.experience c1) with true
    by (symmetry; apply Z.leb_le; exact Hle).
  unfold bind at 1. unfold bind at 1.
  rewrite (_level_up_returns c1 stats h m s a Hstats Hh Hm Hs Ha).
  unfold modify at 1. unfold bind, Character._lookup_next_xp_level_req, get, subscript.
  cbn. rewrite Hreq. reflexivity.
Qed.

(** X9.  A level-up restores health and mana to their new maxima, whatever
    they were and whether the character is alive or dead; it raises the
    maxima, the strength and the armor by the amounts of the table; and
    it leaves the alive flag, the damage range, the inventory and the
    quest log alone.  The damage range is not recomputed from the new
    strength. *)
Theorem level_up_heals_and_keeps_the_damage_range
    (c : Character.t) (xp_reward : Z) (stats : gmap string Z) (h m s a req : Z) :
  Character.xp_req_to_level c <= Character.experience c + xp_reward ->
  Character._LEVEL_STATS c !! (Character.level c + 1) = Some stats ->
  stats !! Character.KEY_LEVEL_STATS_HEALTH = Some h ->
  stats !! Character.KEY_LEVEL_STATS_MANA = Some m ->
  stats !! Character.KEY_LEVEL_STATS_STRENGTH = Some s ->
  stats !! Character.KEY_LEVEL_STATS_ARMOR = Some a ->
  Character._REQUIRED_XP_TO_LEVEL c !! (Character.level c + 1) = Some req ->
  let c' := state_of (Character._award_experience xp_reward c) in
  Character.health c' = (LivingThing.max_health (Character.base c) + inject_Z h)%Q
  /\ LivingThing.max_health (Character.base c')
     = (LivingThing.max_health (Character.base c) + inject_Z h)%Q
  /\ LivingThing.mana (Character.base c')
     = (LivingThing.max_mana (Character.base c) + inject_Z m)%Q
  /\ LivingThing.max_mana (Character.base c')
     = (LivingThing.max_mana (Character.base c) + inject_Z m)%Q
  /\ Character.strength c' = Character.strength c + s
  /\ Character.armor c' = Character.armor c + a
  /\ Character.is_alive c' = Character.is_alive c
  /\ Character.min_damage c' = Character.min_damage c
  /\ Character.max_damage c' = Character.max_damage c
  /\ Character.inventory c' = Character.inventory c
  /\ Character.quest_log c' = Character.quest_log c.
Proof.
  intros Hle Hstats Hh Hm Hs Ha Hreq c'. subst c'.
  rewrite (_award_experience_levels_up c xp_reward stats h m s a req
             Hle Hstats Hh Hm Hs Ha Hreq).
  repeat split.
Qed.

(** The hero reaches level 2 with an award of 400: health 110 of 110,
    strength 11, and the damage range of before. *)
Lemma hero_reaches_level_two :
  Character.xp_req_to_level hero <= Character.experience hero + 400
  /\ Character.health (state_of (Character._award_experience 400 hero))
     = (LivingThing.max_health (Character.base hero) + inject_Z 10)%Q
  /\ Character.strength (state_of (Character._award_experience 400 hero))
     = Character.strength hero + 1
  /\ Character.max_damage (state_of (Character._award_experience 400 hero))
     = Character.max_damage hero.
Proof.
  assert (Hle : Character.xp_req_to_level hero <= Character.experience hero + 400)
    by (cbn; lia).
  assert (Hstats : Character._LEVEL_STATS hero !! (Character.level hero + 1)
                   = Some level_two_stats) by (vm_compute; reflexivity).
  assert (Hh : level_two_stats !! Character.KEY_LEVEL_STATS_HEALTH = Some 10)
    by (vm_compute; reflexivity).
  assert (Hm : level_two_stats !! Character.KEY_LEVEL_STATS_MANA = Some 5)
    by (vm_compute; reflexivity).
  assert (Hs : level_two_stats !! Character.KEY_LEVEL_STATS_STRENGTH = Some 1)
    by (vm_compute; reflexivity).
  assert (Ha : level_two_stats !! Character.KEY_LEVEL_STATS_ARMOR = Some 3)
    by (vm_compute; reflexivity).
  assert (Hreq : Character._REQUIRED_XP_TO_LEVEL hero !! (Character.level hero + 1)
                 = Some 800) by (vm_compute; reflexivity).
  pose proof (level_up_heals_and_keeps_the_damage_range hero 400 level_two_stats 10 5 1 3 800
                Hle Hstats Hh Hm Hs Ha Hreq) as Hup.
  cbv zeta in Hup.
  destruct Hup as (Hhealth & _ & _ & _ & Hstrength & _ & _ & _ & Hmax & _).
  split; [exact Hle | split; [exact Hhealth | split; [exact Hstrength | exact Hmax]]].
Defined.

(** X10.  A level-up that misses a table entry stops halfway with a
    [KeyError].  When the level-stats table has no entry for the new
    level, or the entry lacks one of its four keys, the level has already
    been raised, but no stat has changed and the experience has not been
    reset.  When only the requirement table lacks the new level, the
    level-up and the reset are done and the old requirement stays. *)
Theorem level_up_fails_halfway (c : Character.t) (xp_reward : Z) :
  Character.xp_req_to_level c <= Character.experience c + xp_reward ->
  let awarded := Character.set_experience (Character.experience c + xp_reward) c in
  let run := Character._award_experience xp_reward c in
  (Character._LEVEL_STATS c !! (Character.level c + 1) = None ->
   run = (Raise KeyError, Character.set_level (Character.level c + 1) awarded))
  /\ (forall stats : gmap string Z,
        Character._LEVEL_STATS c !! (Character.level c + 1) = Some stats ->
        (stats !! Character.KEY_LEVEL_STATS_HEALTH = None
         \/ stats !! Character.KEY_LEVEL_STATS_MANA = None
         \/ stats !! Character.KEY_LEVEL_STATS_STRENGTH = None
         \/ stats !! Character.KEY_LEVEL_STATS_ARMOR = None) ->
        run = (Raise KeyError, Character.set_level (Character.level c + 1) awarded))
  /\ (forall (stats : gmap string Z) (h m s a : Z),
        Character._LEVEL_STATS c !! (Character.level c + 1) = Some stats ->
        stats !! Character.KEY_LEVEL_STATS_HEALTH = Some h ->
        stats !! Character.KEY_LEVEL_STATS_MANA = Some m ->
        stats !! Character.KEY_LEVEL_STATS_STRENGTH = Some s ->
        stats !! Character.KEY_LEVEL_STATS_ARMOR = Some a ->
        Character._REQUIRED_XP_TO_LEVEL c !! (Character.level c + 1) = None ->
        run = (Raise KeyError, Character.set_experience 0 (leveled_up h m s a awarded))).
Proof.
  intros Hle awarded run. subst run. rewrite _award_experience_unfold. fold awarded.
  assert (Echeck : forall out,
            (bind Character._level_up (fun _ => modify (Character.set_experience 0)) >>
             (do req <- Character._lookup_next_xp_level_req in
              modify (Character.set_xp_req_to_level req))) awarded = out ->
            Character.check_if_levelup awarded = out).
  { intros out <-. unfold Character.check_if_levelup, bind at 1, get at 1.
    replace (Character.xp_req_to_level awarded <=? Character.experience awarded) with true
      by (symmetry; apply Z.leb_le; exact Hle).
    reflexivity. }
  split; [| split].
  - intros Hnone. apply Echeck.
    unfold Character._level_up, bind, modify, get, subscript. cbn.
    rewrite Hnone. reflexivity.
  - intros stats Hstats Hmissing. apply Echeck.
    unfold Character._level_up, bind, modify, get, subscript. cbn.
    rewrite Hstats. cbn.
    destruct (stats !! Character.KEY_LEVEL_STATS_HEALTH) eqn:Eh; [cbn | reflexivity].
    destruct (stats !! Character.KEY_LEVEL_STATS_MANA) eqn:Em; [cbn | reflexivity].
    destruct (stats !! Character.KEY_LEVEL_STATS_STRENGTH) eqn:Es; [cbn | reflexivity].
    destruct (stats !! Character.KEY_LEVEL_STATS_ARMOR) eqn:Ea; [cbn | reflexivity].
    destruct Hmissing as [H | [H | [H | H]]]; discriminate.
  - intros stats h m s a Hstats Hh Hm Hs Ha Hreq. apply Echeck.
    unfold bind at 1. unfold bind at 1.
    rewrite (_level_up_returns awarded stats h m s a Hstats Hh Hm Hs Ha).
    unfold modify at 1. unfold bind, Character._lookup_next_xp_level_req, get, subscript.
    cbn. rewrite Hreq. reflexivity.
Qed.

(** The veteran's tables stop below level 7, the sparse hero's entry for
    level 2 lacks the armor, the short hero's requirement table stops at
    level 1. *)
Lemma level_ups_that_fail :
  (Character.xp_req_to_level veteran <= Character.experience veteran + 400
   /\ Character._LEVEL_STATS veteran !! (Character.level veteran + 1) = None
   /\ Character._award_experience 400 veteran
      = (Raise KeyError,
         Character.set_level (Character.level veteran + 1)
           (Character.set_experience (Character.experience veteran + 400) veteran)))
  /\ (Character.xp_req_to_level sparse_hero <= Character.experience sparse_hero + 400
      /\ Character._award_experience 400 sparse_hero
         = (Raise KeyError,
            Character.set_level (Character.level sparse_hero + 1)
              (Character.set_experience (Character.experience sparse_hero + 400) sparse_hero)))
  /\ (Character.xp_req_to_level short_hero <= Character.experience short_hero + 400
      /\ Character._REQUIRED_XP_TO_LEVEL short_hero !! (Character.level short_hero + 1) = None
      /\ Character._award_experience 400 short_hero
         = (Raise KeyError,
            Character.set_experience 0
              (leveled_up 10 5 1 3
                 (Character.set_experience (Character.experience short_hero + 400)
                    short_hero)))).
Proof.
  assert (Hv : Character.xp_req_to_level veteran <= Character.experience veteran + 400)
    by (cbn; lia).
  assert (Hs : Character.xp_req_to_level sparse_hero <= Character.experience sparse_hero + 400)
    by (cbn; lia).
  assert (Hh : Character.xp_req_to_level short_hero <= Character.experience short_hero + 400)
    by (cbn; lia).
  assert (Hnone : Character._LEVEL_STATS veteran !! (Character.level veteran + 1) = None)
    by (vm_compute; reflexivity).
  assert (Hreq : Character._REQUIRED_XP_TO_LEVEL short_hero !! (Character.level short_hero + 1)
                 = None) by (vm_compute; reflexivity).
  pose proof (level_up_fails_halfway veteran 400 Hv) as Hveteran.
  pose proof (level_up_fails_halfway sparse_hero 400 Hs) as Hsparse.
  pose proof (level_up_fails_halfway short_hero 400 Hh) as Hshort.
  cbv zeta in Hveteran, Hsparse, Hshort.
  destruct Hveteran as (Hmissing & _). destruct Hsparse as (_ & Hkey & _).
  destruct Hshort as (_ & _ & Hstale).
  split; [split; [exact Hv | split; [exact Hnone | exact (Hmissing Hnone)]] |].
  split.
  - split; [exact Hs |].
    apply (Hkey armorless_stats).
    + vm_compute. reflexivity.
    + right. right. right. vm_compute. reflexivity.
  - split; [exact Hh | split; [exact Hreq |]].
    apply (Hstale level_two_stats); vm_compute; reflexivity.
Defined.

(** ** Gold, purchases and the vendor's stock *)

(** The inventory after [award_item] is the one [store_item] leaves: the
    quest update that follows does not write it. *)
Lemma award_item_inventory (item : Item) (item_count : Z) (c : Character.t) :
  Character.inventory (state_of (Character.award_item item item_count c))
  = Character.inventory (state_of (Character.store_item item item_count c)).
Proof.
  unfold Character.award_item, bind.
  destruct (Character.store_item item item_count c) as [[[] | e] c1]; [| reflexivity].
  apply update_item_quest_inventory.
Qed.

Lemma store_item_inventory (item : Item) (item_count : Z) (c : Character.t) :
  Character.inventory (state_of (Character.store_item item item_count c))
  = match Character.inventory c !! item_name item with
    | None => <[ item_name item := Stack item item_count ]> (Character.inventory c)
    | Some (Stack held n) => <[ item_name held := Stack held (n + n) ]> (Character.inventory c)
    | Some (Gold _) => Character.inventory c
    end.
Proof.
  unfold Character.store_item, bind, get.
  destruct (Character.inventory c !! item_name item) as [[g | held n] |]; reflexivity.
Qed.

(** X11.  [award_gold] adds to the gold entry and to nothing else, so that two
    awards amount to one award of the sum, and [has_enough_gold]
    afterwards compares with the new amount.  Without a gold entry both
    raise [KeyError] and change nothing. *)
Theorem award_gold_adds_up (c : Character.t) (a b : Z) :
  (forall g : Z,
     Character.inventory c !! "gold"%string = Some (Gold g) ->
     Character.award_gold a c
     = (Ok tt, Character.set_inventory
                 (<[ "gold"%string := Gold (g + a) ]> (Character.inventory c)) c)
     /\ (Character.award_gold a >> Character.award_gold b) c = Character.award_gold (a + b) c
     /\ (forall wanted : Z,
           fst (Character.has_enough_gold wanted (state_of (Character.award_gold a c)))
           = Ok (wanted <=? g + a))
     /\ (forall other : string,
           other <> "gold"%string ->
           Character.inventory (state_of (Character.award_gold a c)) !! other
           = Character.inventory c !! other))
  /\ (Character.inventory c !! "gold"%string = None ->
      Character.award_gold a c = (Raise KeyError, c)
      /\ Character.has_enough_gold a c = (Raise KeyError, c)).
Proof.
  split.
  - intros g Hgold.
    assert (E : forall x, Character.award_gold x c
                = (Ok tt, Character.set_inventory
                            (<[ "gold"%string := Gold (g + x) ]> (Character.inventory c)) c)).
    { intros x. unfold Character.award_gold, bind, get, subscript. rewrite Hgold. reflexivity. }
    split; [apply E |]. split; [| split].
    + unfold bind at 1. rewrite !E.
      unfold Character.award_gold, bind, get, subscript.
      cbn [Character.inventory Character.set_inventory].
      rewrite lookup_insert_eq. cbn. unfold modify.
      rewrite insert_insert_eq. rewrite Z.add_assoc. reflexivity.
    + intros wanted. rewrite E. cbn [state_of snd].
      unfold Character.has_enough_gold, bind, get, subscript.
      cbn [Character.inventory Character.set_inventory].
      rewrite lookup_insert_eq. reflexivity.
    + intros other Hother. rewrite E. cbn [state_of snd Character.inventory Character.set_inventory].
      apply lookup_insert_ne. congruence.
  - intros Hnone. split.
    + unfold Character.award_gold, bind, get, subscript. rewrite Hnone. reflexivity.
    + unfold Character.has_enough_gold, bind, get, subscript. rewrite Hnone. reflexivity.
Qed.

(** The hero starts with 0 gold: 3 and then 4 make 7. *)
Lemma hero_is_awarded_gold :
  Character.inventory hero !! "gold"%string = Some (Gold 0)
  /\ (Character.award_gold 3 >> Character.award_gold 4) hero = Character.award_gold (3 + 4) hero
  /\ fst (Character.has_enough_gold 5 (state_of (Character.award_gold 3 hero)))
     = Ok (5 <=? 0 + 3).
Proof.
  assert (Hgold : Character.inventory hero !! "gold"%string = Some (Gold 0))
    by (vm_compute; reflexivity).
  destruct (award_gold_adds_up hero 3 4) as (Hadd & _).
  destruct (Hadd 0 Hgold) as (_ & Hsum & Henough & _).
  split; [exact Hgold | split; [exact Hsum | exact (Henough 5)]].
Defined.

(** The gold entry after [buy_item] deducts the price. *)
Lemma buy_item_pays (c : Character.t) (item : Item) (item_count item_price g : Z) :
  Character.inventory c !! "gold"%string = Some (Gold g) ->
  Character.buy_item (item, item_count, item_price) c
  = Character.award_item item item_count
      (Character.set_inventory
         (<[ "gold"%string := Gold (g - item_price) ]> (Character.inventory c)) c).
Proof.
  intros Hgold. unfold Character.buy_item, bind at 1, bind at 1, get at 1.
  unfold bind at 1, subscript. rewrite Hgold. reflexivity.
Qed.

(** X12.  [buy_item] does not look at the purse.  With a gold entry [g], the
    price is taken even when it exceeds [g], leaving a negative amount,
    although [has_enough_gold] answers no.  An item not held before is
    then held with the count bought, and nothing else in the inventory
    changes.  An item that is itself named gold costs its price and
    raises [TypeError] without being stored. *)
Theorem buy_item_never_checks_the_purse
    (c : Character.t) (item : Item) (item_count item_price g : Z) :
  Character.inventory c !! "gold"%string = Some (Gold g) ->
  let c' := state_of (Character.buy_item (item, item_count, item_price) c) in
  Character.has_enough_gold item_price c = (Ok (item_price <=? g), c)
  /\ (item_name item <> "gold"%string ->
      Character.inventory c !! item_name item = None ->
      Character.inventory c'
      = <[ item_name item := Stack item item_count ]>
          (<[ "gold"%string := Gold (g - item_price) ]> (Character.inventory c)))
  /\ (item_name item = "gold"%string ->
      Character.buy_item (item, item_count, item_price) c
      = (Raise TypeError,
         Character.set_inventory
           (<[ "gold"%string := Gold (g - item_price) ]> (Character.inventory c)) c)).
Proof.
  intros Hgold c'. subst c'. rewrite (buy_item_pays _ _ _ _ _ Hgold).
  split; [| split].
  - unfold Character.has_enough_gold, bind, get, subscript. rewrite Hgold. reflexivity.
  - intros Hname Hfresh. rewrite award_item_inventory, store_item_inventory.
    cbn [Character.inventory Character.set_inventory].
    rewrite lookup_insert_ne by congruence. rewrite Hfresh. reflexivity.
  - intros Hname. unfold Character.award_item. apply bind_raise.
    unfold Character.store_item, bind, get.
    cbn [Character.inventory Character.set_inventory].
    rewrite Hname, lookup_insert_eq. reflexivity.
Qed.

(** The hero, with no gold, buys two pieces of meat for 5. *)
Lemma penniless_hero_buys_meat :
  Character.inventory hero !! "gold"%string = Some (Gold 0)
  /\ Character.has_enough_gold 5 hero = (Ok (5 <=? 0), hero)
  /\ item_name wolf_meat <> "gold"%string
  /\ Character.inventory hero !! item_name wolf_meat = None
  /\ Character.inventory (state_of (Character.buy_item (wolf_meat, 2, 5) hero))
     = <[ item_name wolf_meat := Stack wolf_meat 2 ]>
         (<[ "gold"%string := Gold (0 - 5) ]> (Character.inventory hero)).
Proof.
  assert (Hgold : Character.inventory hero !! "gold"%string = Some (Gold 0))
    by (vm_compute; reflexivity).
  assert (Hname : item_name wolf_meat <> "gold"%string) by (cbn; discriminate).
  assert (Hfresh : Character.inventory hero !! item_name wolf_meat = None)
    by (vm_compute; reflexivity).
  pose proof (buy_item_never_checks_the_purse hero wolf_meat 2 5 0 Hgold) as Hbuy.
  cbv zeta in Hbuy. destruct Hbuy as (Hasked & Hbought & _).
  split; [exact Hgold | split; [exact Hasked | split; [exact Hname |]]].
  split; [exact Hfresh | exact (Hbought Hname Hfresh)].
Defined.

(** X13.  Selling takes the entry out of the vendor's stock.  For a name in
    stock, [sell_item] returns the item, its count and its buy price, the
    price [get_item_price] quotes; afterwards the vendor no longer has the
    item, a second sale raises [KeyError], and the rest of the stock is
    untouched.  For a name not in stock, both raise [KeyError] and change
    nothing. *)
Theorem sell_item_takes_the_entry_out (v : VendorNPC.t) (item_name : string) :
  (VendorNPC.inventory v !! item_name = None ->
   VendorNPC.has_item item_name v = false
   /\ VendorNPC.sell_item item_name v = (Raise KeyError, v)
   /\ VendorNPC.get_item_price item_name v = (Raise KeyError, v))
  /\ (forall (item : Item) (item_count : Z),
        VendorNPC.inventory v !! item_name = Some (item, item_count) ->
        let v' := VendorNPC.set_inventory (delete item_name (VendorNPC.inventory v)) v in
        VendorNPC.has_item item_name v = true
        /\ VendorNPC.get_item_price item_name v = (Ok (buy_price item), v)
        /\ VendorNPC.sell_item item_name v = (Ok (item, item_count, buy_price item), v')
        /\ VendorNPC.has_item item_name v' = false
        /\ VendorNPC.sell_item item_name v' = (Raise KeyError, v')
        /\ (forall other : string,
              other <> item_name ->
              VendorNPC.inventory v' !! other = VendorNPC.inventory v !! other)).
Proof.
  split.
  - intros Hnone. split; [| split].
    + unfold VendorNPC.has_item. rewrite Hnone. apply bool_decide_eq_false. intros [x Hx].
      discriminate.
    + unfold VendorNPC.sell_item, bind, get, subscript. rewrite Hnone. reflexivity.
    + unfold VendorNPC.get_item_price, bind, get, subscript. rewrite Hnone. reflexivity.
  - intros item item_count Hsome v'. subst v'. split; [| split; [| split; [| split; [| split]]]].
    + unfold VendorNPC.has_item. rewrite Hsome. apply bool_decide_eq_true. eauto.
    + unfold VendorNPC.get_item_price, bind, get, subscript. rewrite Hsome. reflexivity.
    + unfold VendorNPC.sell_item, bind, get, subscript. rewrite Hsome. reflexivity.
    + unfold VendorNPC.has_item. cbn [VendorNPC.inventory VendorNPC.set_inventory].
      rewrite lookup_delete_eq. apply bool_decide_eq_false. intros [x Hx]. discriminate.
    + unfold VendorNPC.sell_item, bind, get, subscript.
      cbn [VendorNPC.inventory VendorNPC.set_inventory].
      rewrite lookup_delete_eq. reflexivity.
    + intros other Hother. cbn [VendorNPC.inventory VendorNPC.set_inventory].
      apply lookup_delete_ne. congruence.
Qed.

(** The grocer sells the meat once, and has no bread. *)
Lemma grocer_sells_meat_once :
  (VendorNPC.inventory grocer !! "Bread"%string = None
   /\ VendorNPC.sell_item "Bread" grocer = (Raise KeyError, grocer))
  /\ (VendorNPC.inventory grocer !! "Wolf Meat"%string
      = Some (with_buy_price 9 wolf_meat, 7)
      /\ VendorNPC.get_item_price "Wolf Meat" grocer = (Ok 9, grocer)
      /\ VendorNPC.sell_item "Wolf Meat" grocer
         = (Ok (with_buy_price 9 wolf_meat, 7, 9),
            VendorNPC.set_inventory (delete "Wolf Meat"%string (VendorNPC.inventory grocer))
              grocer)).
Proof.
  assert (Hbread : VendorNPC.inventory grocer !! "Bread"%string = None)
    by (vm_compute; reflexivity).
  assert (Hmeat : VendorNPC.inventory grocer !! "Wolf Meat"%string
                  = Some (with_buy_price 9 wolf_meat, 7)) by (vm_compute; reflexivity).
  destruct (sell_item_takes_the_entry_out grocer "Bread") as (Habsent & _).
  destruct (sell_item_takes_the_entry_out grocer "Wolf Meat") as (_ & Hpresent).
  destruct (Habsent Hbread) as (_ & Hraise & _).
  pose proof (Hpresent _ _ Hmeat) as Hsold. cbv zeta in Hsold.
  destruct Hsold as (_ & Hprice & Hsale & _).
  split; [split; [exact Hbread | exact Hraise] |].
  split; [exact Hmeat | split; [exact Hprice | exact Hsale]].
Defined.

(** X14.  A purchase, [buy_item] on what [sell_item] returns, for an item in
    stock under its own name, bought by a character with a gold entry.
    The vendor no longer has the item.  A buyer who held none of the item
    pays the item's buy price and holds the count sold.  A buyer who
    already held [k] of it pays the same and holds [k + k], whatever
    count was sold. *)
Theorem purchase_moves_the_stock_to_the_buyer
    (v : VendorNPC.t) (c : Character.t) (name : string) (item : Item) (n g : Z) :
  VendorNPC.inventory v !! name = Some (item, n) ->
  item_name item = name ->
  name <> "gold"%string ->
  Character.inventory c !! "gold"%string = Some (Gold g) ->
  exists (sale : Item * Z * Z) (v' : VendorNPC.t),
    VendorNPC.sell_item name v = (Ok sale, v')
    /\ VendorNPC.has_item name v' = false
    /\ (Character.inventory c !! name = None ->
        Character.inventory (state_of (Character.buy_item sale c)) !! "gold"%string
        = Some (Gold (g - buy_price item))
        /\ Character.inventory (state_of (Character.buy_item sale c)) !! name
           = Some (Stack item n))
    /\ (forall (held : Item) (k : Z),
          Character.inventory c !! name = Some (Stack held k) ->
          item_name held = name ->
          Character.inventory (state_of (Character.buy_item sale c)) !! "gold"%string
          = Some (Gold (g - buy_price item))
          /\ Character.inventory (state_of (Character.buy_item sale c)) !! name
             = Some (Stack held (k + k))).
Proof.
  intros Hstock Hname Hgoldname Hgold.
  exists (item, n, buy_price item),
         (VendorNPC.set_inventory (delete name (VendorNPC.inventory v)) v).
  split.
  { unfold VendorNPC.sell_item, bind, get, subscript. rewrite Hstock. reflexivity. }
  split.
  { unfold VendorNPC.has_item. cbn [VendorNPC.inventory VendorNPC.set_inventory].
    rewrite lookup_delete_eq. apply bool_decide_eq_false. intros [x Hx]. discriminate. }
  rewrite (buy_item_pays _ _ _ _ _ Hgold), award_item_inventory, store_item_inventory.
  cbn [Character.inventory Character.set_inventory]. rewrite Hname.
  rewrite (lookup_insert_ne _ "gold"%string name) by congruence.
  split.
  - intros Hfresh. rewrite Hfresh. split.
    + rewrite lookup_insert_ne by congruence. apply lookup_insert_eq.
    + apply lookup_insert_eq.
  - intros held k Hheld Hheldname. rewrite Hheld, Hheldname. split.
    + rewrite lookup_insert_ne by congruence. apply lookup_insert_eq.
    + apply lookup_insert_eq.
Qed.

(** The hero buys the grocer's meat: seven pieces at 9 gold for a hero
    who held none, six pieces for the hero who held three. *)
Lemma heroes_buy_the_grocers_meat :
  VendorNPC.inventory grocer !! "Wolf Meat"%string = Some (with_buy_price 9 wolf_meat, 7)
  /\ Character.inventory hero !! "Wolf Meat"%string = None
  /\ Character.inventory hero_with_meat !! "Wolf Meat"%string = Some (Stack wolf_meat 3)
  /\ (exists (sale : Item * Z * Z) (v' : VendorNPC.t),
        VendorNPC.sell_item "Wolf Meat" grocer = (Ok sale, v')
        /\ Character.inventory (state_of (Character.buy_item sale hero)) !! "gold"%string
           = Some (Gold (0 - 9))
        /\ Character.inventory (state_of (Character.buy_item sale hero)) !! "Wolf Meat"%string
           = Some (Stack (with_buy_price 9 wolf_meat) 7))
  /\ (exists (sale : Item * Z * Z) (v' : VendorNPC.t),
        VendorNPC.sell_item "Wolf Meat" grocer = (Ok sale, v')
        /\ Character.inventory (state_of (Character.buy_item sale hero_with_meat))
           !! "Wolf Meat"%string = Some (Stack wolf_meat (3 + 3))).
Proof.
  assert (Hstock : VendorNPC.inventory grocer !! "Wolf Meat"%string
                   = Some (with_buy_price 9 wolf_meat, 7)) by (vm_compute; reflexivity).
  assert (Hname : item_name (with_buy_price 9 wolf_meat) = "Wolf Meat"%string) by reflexivity.
  assert (Hnotgold : "Wolf Meat"%string <> "gold"%string) by discriminate.
  assert (Hgold : Character.inventory hero !! "gold"%string = Some (Gold 0))
    by (vm_compute; reflexivity).
  assert (Hgold' : Character.inventory hero_with_meat !! "gold"%string = Some (Gold 0))
    by (vm_compute; reflexivity).
  assert (Hfresh : Character.inventory hero !! "Wolf Meat"%string = None)
    by (vm_compute; reflexivity).
  assert (Hheld : Character.inventory hero_with_meat !! "Wolf Meat"%string
                  = Some (Stack wolf_meat 3)) by (vm_compute; reflexivity).
  destruct (purchase_moves_the_stock_to_the_buyer grocer hero "Wolf Meat"
              (with_buy_price 9 wolf_meat) 7 0 Hstock Hname Hnotgold Hgold)
    as (sale & v' & Esale & _ & Hnew & _).
  destruct (purchase_moves_the_stock_to_the_buyer grocer hero_with_meat "Wolf Meat"
              (with_buy_price 9 wolf_meat) 7 0 Hstock Hname Hnotgold Hgold')
    as (sale2 & v2 & Esale2 & _ & _ & Hmore).
  destruct (Hnew Hfresh) as (Hpaid & Hgot).
  destruct (Hmore wolf_meat 3 Hheld eq_refl) as (_ & Hdoubled).
  split; [exact Hstock | split; [exact Hfresh | split; [exact Hheld |]]].
  split.
  - exists sale, v'. split; [exact Esale | split; [exact Hpaid | exact Hgot]].
  - exists sale2, v2. split; [exact Esale2 | exact Hdoubled].
Defined.

(** ** The quest log *)

(** X15.  [add_quest] files the quest under its id, replacing whatever quest
    was there and touching no other id.  Completing a quest whose id is
    not in the log raises [KeyError] and awards nothing.  Adding a quest
    under a free id and then completing it leaves the quest log as it
    was before the quest was added. *)
Theorem quest_log_add_and_complete (c : Character.t) (quest : Quest.t) :
  let added := state_of (Character.add_quest quest c) in
  Character.quest_log added !! Quest.ID quest = Some quest
  /\ (forall other : Z,
        other <> Quest.ID quest ->
        Character.quest_log added !! other = Character.quest_log c !! other)
  /\ (Character.quest_log c !! Quest.ID quest = None ->
      Character._complete_quest quest c = (Raise KeyError, c)
      /\ Character.quest_log (state_of (Character._complete_quest quest added))
         = Character.quest_log c).
Proof.
  intros added. subst added. unfold Character.add_quest, modify.
  cbn [state_of snd Character.quest_log Character.set_quest_log].
  split; [apply lookup_insert_eq |]. split.
  - intros other Hother. apply lookup_insert_ne. congruence.
  - intros Hfree. split.
    + unfold Character._complete_quest, bind at 1, bind at 1, get at 1.
      rewrite Hfree. reflexivity.
    + unfold Character._complete_quest, bind at 1, bind at 1, get at 1.
      cbn [Character.quest_log Character.set_quest_log].
      rewrite lookup_insert_eq. unfold modify.
      rewrite _award_experience_quest_log.
      cbn [Character.quest_log Character.set_quest_log].
      rewrite delete_insert_eq. apply delete_id. exact Hfree.
Qed.

(** The hero's log is empty: the wolf quest is added and completed. *)
Lemma hero_adds_and_completes_wolf_quest :
  Character.quest_log hero !! Quest.ID wolf_quest = None
  /\ Character._complete_quest wolf_quest hero = (Raise KeyError, hero)
  /\ Character.quest_log
       (state_of (Character._complete_quest wolf_quest
                    (state_of (Character.add_quest wolf_quest hero))))
     = Character.quest_log hero.
Proof.
  assert (Hfree : Character.quest_log hero !! Quest.ID wolf_quest = None)
    by (vm_compute; reflexivity).
  pose proof (quest_log_add_and_complete hero wolf_quest) as Hlog.
  cbv zeta in Hlog. destruct Hlog as (_ & _ & Hround).
  destruct (Hround Hfree) as (Hraise & Hback).
  split; [exact Hfree | split; [exact Hraise | exact Hback]].
Defined.

(** ** What a kill leaves alone *)

Section Untouched.

(** An observation of the character that none of the fields written by
    the experience and quest cascade enters. *)
Context {X : Type} (f : Character.t -> X).
Hypothesis f_level : forall l c, f (Character.set_level l c) = f c.
Hypothesis f_base : forall b c, f (Character.set_base b c) = f c.
Hypothesis f_stats : forall s a c, f (Character.set_stats s a c) = f c.
Hypothesis f_experience : forall e c, f (Character.set_experience e c) = f c.
Hypothesis f_xp_req : forall r c, f (Character.set_xp_req_to_level r c) = f c.
Hypothesis f_quest_log : forall q c, f (Character.set_quest_log q c) = f c.

Lemma _complete_quest_untouched (quest : Quest.t) :
  preserves f (Character._complete_quest quest).
Proof.
  unfold Character._complete_quest.
  apply preserves_bind; [| intros _; now apply _award_experience_preserves].
  apply preserves_bind; [apply preserves_get | intros self].
  destruct (_ !! _); [| apply preserves_raise].
  apply preserves_modify. intros s. apply f_quest_log.
Qed.

Lemma update_kill_quest_untouched (monster_quest_ID : Z) :
  preserves f (Character.update_kill_quest monster_quest_ID).
Proof.
  unfold Character.update_kill_quest.
  apply preserves_bind; [apply preserves_get | intros self].
  destruct (_ && _); [| apply preserves_ret].
  apply preserves_bind; [apply preserves_subscript | intros quest].
  apply preserves_bind; [apply preserves_modify; intros s; apply f_quest_log | intros _].
  unfold Character._check_if_quest_completed.
  destruct (Quest.is_completed _); [apply _complete_quest_untouched | apply preserves_ret].
Qed.

Lemma award_monster_kill_untouched (monster : Monster.t) :
  preserves f (Character.award_monster_kill monster).
Proof.
  unfold Character.award_monster_kill.
  apply preserves_bind; [apply preserves_get | intros self].
  apply preserves_bind; [now apply _award_experience_preserves | intros _].
  apply update_kill_quest_untouched.
Qed.

End Untouched.

(** X16.  [award_monster_kill] hands over experience and nothing else: whether
    it returns or raises, the inventory, gold included, the equipped
    weapon and the damage range are as before.  For a monster with no
    quest relation, or with one that is not in the quest log, the quest
    log is as before too, and the kill is the award of experience
    alone. *)
Theorem a_kill_awards_experience_only (c : Character.t) (monster : Monster.t) :
  let c' := state_of (Character.award_monster_kill monster c) in
  Character.inventory c' = Character.inventory c
  /\ Character.equipped_weapon c' = Character.equipped_weapon c
  /\ Character.min_damage c' = Character.min_damage c
  /\ Character.max_damage c' = Character.max_damage c
  /\ (Monster.quest_relation_ID monster = 0
      \/ Character.quest_log c !! Monster.quest_relation_ID monster = None ->
      Character.quest_log c' = Character.quest_log c
      /\ exists awarded : Z,
           Character.award_monster_kill monster c = Character._award_experience awarded c).
Proof.
  intros c'. subst c'.
  split; [apply (award_monster_kill_untouched Character.inventory); reflexivity |].
  split; [apply (award_monster_kill_untouched Character.equipped_weapon); reflexivity |].
  split; [apply (award_monster_kill_untouched Character.min_damage); reflexivity |].
  split; [apply (award_monster_kill_untouched Character.max_damage); reflexivity |].
  intros Hnoquest.
  set (awarded := fst (Character.kill_rewards (Character.level c - Monster.level monster)
                         (Monster.xp_to_give monster))
                  + snd (Character.kill_rewards (Character.level c - Monster.level monster)
                           (Monster.xp_to_give monster))).
  assert (E : Character.award_monster_kill monster c
              = Character._award_experience awarded c).
  { unfold Character.award_monster_kill, bind at 1, get at 1. fold awarded.
    unfold bind.
    pose proof (_award_experience_quest_log awarded c) as Hlog.
    destruct (Character._award_experience awarded c) as [[[] | e] c1]; [| reflexivity].
    cbn in Hlog. unfold Character.update_kill_quest, bind, get. rewrite Hlog.
    destruct Hnoquest as [-> | Hnone]; [reflexivity |].
    rewrite Hnone.
    replace (bool_decide (is_Some (@None Quest.t))) with false
      by (symmetry; apply bool_decide_eq_false; intros [x Hx]; discriminate).
    rewrite andb_false_r. reflexivity. }
  split; [rewrite E; apply _award_experience_quest_log | exists awarded; exact E].
Qed.

(** The hero kills the wolf, which belongs to no quest. *)
Lemma hero_kills_a_wolf_of_no_quest :
  (Monster.quest_relation_ID wolf = 0
   \/ Character.quest_log hero !! Monster.quest_relation_ID wolf = None)
  /\ Character.inventory (state_of (Character.award_monster_kill wolf hero))
     = Character.inventory hero
  /\ Character.quest_log (state_of (Character.award_monster_kill wolf hero))
     = Character.quest_log hero.
Proof.
  assert (Hnoquest : Monster.quest_relation_ID wolf = 0
                     \/ Character.quest_log hero !! Monster.quest_relation_ID wolf = None)
    by (left; reflexivity).
  pose proof (a_kill_awards_experience_only hero wolf) as Hkill.
  cbv zeta in Hkill. destruct Hkill as (Hinventory & _ & _ & _ & Hquest).
  destruct (Hquest Hnoquest) as (Hlog & _).
  split; [exact Hnoquest | split; [exact Hinventory | exact Hlog]].
Defined.

(** ** Equipping a weapon *)

Lemma py_int_weapon_bound (bound strength : Z) :
  0 <= bound -> 0 <= strength ->
  py_int (inject_Z bound + tenth * inject_Z strength) = bound + strength / 10.
Proof.
  intros Hb Hs. rewrite py_int_floor.
  - unfold floor, tenth, Qfloor, Qplus, Qmult, inject_Z. cbn.
    change (Z.pos (1 * (10 * 1))) with 10. change (Z.pos (10 * 1)) with 10.
    replace (bound * 10 + 1 * strength * 1) with (strength + bound * 10) by lia.
    rewrite Z.div_add by lia. lia.
  - unfold tenth, Qle, Qplus, Qmult, inject_Z. cbn. lia.
Qed.

(** X17.  [equip_weapon] makes the weapon the equipped one and sets the damage
    range to the weapon's, both ends shifted by a tenth of the strength;
    the range depends on the last weapon equipped only, and the inventory
    is not touched.  For a weapon with whole bounds [lo <= hi] and a
    strength that are not negative, the auto-attack then draws between
    [lo + strength / 10] and [hi + strength / 10 + 1], the division
    rounding down: strength counts in steps of ten. *)
Theorem equip_weapon_sets_the_damage_range (c : Character.t) (previous weapon : Weapon) :
  let c' := Character.equip_weapon weapon c in
  Character.equipped_weapon c' = weapon
  /\ Character.min_damage c'
     = (weapon_min_damage weapon + tenth * inject_Z (Character.strength c))%Q
  /\ Character.max_damage c'
     = (weapon_max_damage weapon + tenth * inject_Z (Character.strength c))%Q
  /\ Character.equip_weapon weapon (Character.equip_weapon previous c) = c'
  /\ Character.inventory c' = Character.inventory c
  /\ (forall lo hi : Z,
        weapon_min_damage weapon = inject_Z lo ->
        weapon_max_damage weapon = inject_Z hi ->
        0 <= lo -> lo <= hi -> 0 <= Character.strength c ->
        forall (target_level : Z) (g : Rng),
        exists (roll : Z) (g' : Rng),
          Character.get_auto_attack_damage c' target_level g
          = (Ok {| phys_dmg :=
                     scale_by_level (Character.level c - target_level) (inject_Z roll) |}, g')
          /\ lo + Character.strength c / 10 <= roll <= hi + Character.strength c / 10 + 1).
Proof.
  intros c'. subst c'. repeat split.
  intros lo hi Hlo Hhi Hlo0 Hrange Hs target_level g.
  assert (Emin : py_int (Character.min_damage (Character.equip_weapon weapon c))
                 = lo + Character.strength c / 10).
  { cbn. rewrite Hlo. apply py_int_weapon_bound; lia. }
  assert (Emax : py_int (Character.max_damage (Character.equip_weapon weapon c))
                 = hi + Character.strength c / 10).
  { cbn. rewrite Hhi. apply py_int_weapon_bound; lia. }
  destruct (randint_in_range (lo + Character.strength c / 10)
              (hi + Character.strength c / 10 + 1) g) as (roll & g' & E & Hin); [lia |].
  exists roll, g'. split; [| exact Hin].
  apply (Character_auto_attack_roll (Character.equip_weapon weapon c)).
  rewrite Emin, Emax. exact E.
Qed.

(** The hero, of strength 10, equips a sword of 2 to 4: he draws between
    3 and 6. *)
Lemma hero_equips_rusty_sword :
  weapon_min_damage rusty_sword = inject_Z 2
  /\ weapon_max_damage rusty_sword = inject_Z 4
  /\ 0 <= 2 /\ 2 <= 4 /\ 0 <= Character.strength hero
  /\ exists (roll : Z) (g' : Rng),
       Character.get_auto_attack_damage (Character.equip_weapon rusty_sword hero) 1
         (constant_rng 0)
       = (Ok {| phys_dmg := scale_by_level (Character.level hero - 1) (inject_Z roll) |}, g')
       /\ 2 + Character.strength hero / 10 <= roll <= 4 + Character.strength hero / 10 + 1.
Proof.
  assert (Hlo : weapon_min_damage rusty_sword = inject_Z 2) by reflexivity.
  assert (Hhi : weapon_max_damage rusty_sword = inject_Z 4) by reflexivity.
  assert (H0 : 0 <= 2) by lia.
  assert (Hrange : 2 <= 4) by lia.
  assert (Hs : 0 <= Character.strength hero) by (cbn; lia).
  pose proof (equip_weapon_sets_the_damage_range hero Character.starter_weapon rusty_sword)
    as Hequip.
  cbv zeta in Hequip. destruct Hequip as (_ & _ & _ & _ & _ & Hdraw).
  split; [exact Hlo | split; [exact Hhi | split; [exact H0 | split; [exact Hrange |]]]].
  split; [exact Hs |].
  exact (Hdraw 2 4 Hlo Hhi H0 Hrange Hs 1 (constant_rng 0)).
Defined.

(** ** The stock of a vendor *)

Lemma priced_item_name (product : Product) :
  item_name (priced_item product) = item_name (product_item product).
Proof. unfold priced_item. destruct (price_overrides _); reflexivity. Qed.

(** Every entry of the stock built was in the stock before or comes from
    a product, filed under the name of its item. *)
Lemma stock_products_entry (products : list Product) :
  forall (vendor_inventory : gmap string (Item * Z)) (k : string) (item : Item) (n : Z),
    stock_products products vendor_inventory !! k = Some (item, n) ->
    vendor_inventory !! k = Some (item, n)
    \/ exists product : Product,
         In product products
         /\ item = priced_item product
         /\ n = product_item_count product
         /\ k = item_name (product_item product).
Proof.
  induction products as [| product rest IH]; intros inv k item n Hk; [now left |].
  cbn [stock_products] in Hk. destruct (IH _ _ _ _ Hk) as [Hin | (q & Hq & -> & -> & ->)].
  - destruct (decide (item_name (priced_item product) = k)) as [Heq | Hne].
    + rewrite <- Heq, lookup_insert_eq in Hin. injection Hin as <- <-.
      right. exists product. rewrite <- Heq, priced_item_name.
      split; [now left | repeat split].
    + rewrite lookup_insert_ne in Hin by exact Hne. now left.
  - right. exists q. split; [now right | repeat split].
Qed.

(** Products under other names leave a name's entry alone. *)
Lemma stock_products_other_names (products : list Product) :
  forall (vendor_inventory : gmap string (Item * Z)) (k : string),
    (forall product, In product products -> item_name (product_item product) <> k) ->
    stock_products products vendor_inventory !! k = vendor_inventory !! k.
Proof.
  induction products as [| product rest IH]; intros inv k Hother; [reflexivity |].
  cbn [stock_products]. rewrite IH by (intros q Hq; apply Hother; now right).
  apply lookup_insert_ne. rewrite priced_item_name. apply Hother. now left.
Qed.

Lemma stock_products_app (front back : list Product) :
  forall vendor_inventory : gmap string (Item * Z),
    stock_products (front ++ back) vendor_inventory
    = stock_products back (stock_products front vendor_inventory).
Proof.
  induction front as [| product rest IH]; intros inv; [reflexivity |].
  cbn [app stock_products]. apply IH.
Qed.

(** X18.  [build_vendor_inventory] files every product under the name of its
    item, so each entry of the stock holds an item of the name it is
    filed under, taken from some product with that product's count.  Of
    several products with one name the last one makes the entry.  A price
    on the product replaces the item's buy price, unless it is 0 or
    missing. *)
Theorem vendor_stock_is_filed_by_item_name (products : list Product) :
  (forall (k : string) (item : Item) (n : Z),
     build_vendor_inventory products !! k = Some (item, n) ->
     item_name item = k
     /\ exists product : Product,
          In product products
          /\ item = priced_item product
          /\ n = product_item_count product)
  /\ (forall (front back : list Product) (product : Product),
        products = front ++ product :: back ->
        (forall later, In later back ->
           item_name (product_item later) <> item_name (product_item product)) ->
        build_vendor_inventory products !! item_name (product_item product)
        = Some (priced_item product, product_item_count product))
  /\ (forall (product : Product) (price : Z),
        product_price product = Some price -> price <> 0 ->
        priced_item product = with_buy_price price (product_item product))
  /\ (forall product : Product,
        product_price product = None \/ product_price product = Some 0 ->
        priced_item product = product_item product).
Proof.
  split; [| split; [| split]].
  - intros k item n Hk. unfold build_vendor_inventory in Hk.
    destruct (stock_products_entry _ _ _ _ _ Hk) as [Hempty | (q & Hq & -> & -> & ->)].
    + rewrite lookup_empty in Hempty. discriminate.
    + split; [apply priced_item_name |]. exists q. repeat split. exact Hq.
  - intros front back product -> Hlater. unfold build_vendor_inventory.
    rewrite stock_products_app. cbn [stock_products].
    rewrite stock_products_other_names by exact Hlater.
    rewrite <- priced_item_name. apply lookup_insert_eq.
  - intros product price Hprice Hnonzero. unfold priced_item. rewrite Hprice. cbn.
    destruct (price =? 0) eqn:E; [apply Z.eqb_eq in E; contradiction | reflexivity].
  - intros product [Hprice | Hprice]; unfold priced_item; rewrite Hprice; reflexivity.
Qed.

(** The sample products: the second row of Wolf Meat makes the entry, at
    its price of 9; the price 0 of the Wolf Fang does not override. *)
Lemma sample_stock_is_filed_by_item_name :
  build_vendor_inventory sample_products !! "Wolf Meat"%string
  = Some (with_buy_price 9 wolf_meat, 7)
  /\ item_name (with_buy_price 9 wolf_meat) = "Wolf Meat"%string
  /\ priced_item {| product_item := wolf_fang; product_item_count := 1;
                    product_price := Some 0 |} = wolf_fang.
Proof.
  assert (Hmeat : build_vendor_inventory sample_products !! "Wolf Meat"%string
                  = Some (with_buy_price 9 wolf_meat, 7)) by (vm_compute; reflexivity).
  destruct (vendor_stock_is_filed_by_item_name sample_products) as (Hfiled & _ & _ & Hzero).
  destruct (Hfiled _ _ _ Hmeat) as (Hname & _).
  split; [exact Hmeat | split; [exact Hname |]].
  apply Hzero. right. reflexivity.
Defined.
